(** * NotificationService: the real-time hub of the live-streaming backend

    A shallow embedding of [class NotificationService]
    (backend/services/NotificationService.js): the four in-process maps,
    the Socket.IO event handlers installed by [setupSocketHandlers], the
    notification helpers, and the two Mongoose collections they touch;
    together with the Socket.IO listeners that server.js installs on the
    same connections, the login rate limiter of middleware/auth.js and
    the paging of the stream listings of routes/streams.js.

    Part I holds the program and the vocabulary used to talk about it,
    Part II the statements and their proofs.

    Conventions.
    - Every handler runs to completion before the next event is handled:
      an event trace is a sequence, [await] points are not interleaved.
    - JavaScript strings are [string]s (code units below 256); [.length]
      is [String.length].
    - A [Map] is an association list kept in insertion order, as [Map]
      iteration is; a [Set] of socket ids is a duplicate-free list in
      insertion order.
    - The database is a pair of finite maps.  Every database call of a
      handler may be rejected; which ones are is given by an [Outcome].
      A rejected read and a missing document end the same way in every
      caller, so both are a lookup that finds nothing.
    - Time is a clock in milliseconds that only [Elapse] events advance;
      they run the [setTimeout] callbacks that come due.
    - Everything a handler sends is collected, in order, in a list of
      [Emission]s.  [console.log] output is not part of the model. *)

From Stdlib Require Import String Ascii List Bool Arith NArith ZArith Lia Sorted.
From Stdlib Require Import DecimalString DecimalN.
From stdpp Require Import base gmap strings list.
Import ListNotations.

Local Open Scope string_scope.
Local Open Scope list_scope.

(* ##################################################################### *)
(** * Part I: the program *)
(* ##################################################################### *)

(* ===================================================================== *)
(** ** JavaScript [Map] with string keys *)
(* ===================================================================== *)

Module JsMap.
Section JsMap.
Context {V : Type}.

Fixpoint get (k : string) (m : list (string * V)) : option V :=
  match m with
  | [] => None
  | (k', v) :: r => if String.eqb k k' then Some v else get k r
  end.

Definition has (k : string) (m : list (string * V)) : bool :=
  match get k m with Some _ => true | None => false end.

(** [set] on a present key keeps the key's position; a new key goes last. *)
Fixpoint set (k : string) (v : V) (m : list (string * V)) : list (string * V) :=
  match m with
  | [] => [(k, v)]
  | (k', v') :: r =>
      if String.eqb k k' then (k, v) :: r else (k', v') :: set k v r
  end.

Fixpoint delete (k : string) (m : list (string * V)) : list (string * V) :=
  match m with
  | [] => []
  | (k', v') :: r =>
      if String.eqb k k' then delete k r else (k', v') :: delete k r
  end.

Definition keys (m : list (string * V)) : list string := map fst m.

Definition size (m : list (string * V)) : nat := length m.

End JsMap.
End JsMap.

(* ===================================================================== *)
(** ** JavaScript [Set] of strings *)
(* ===================================================================== *)

Module JsSet.

Definition has (x : string) (s : list string) : bool :=
  existsb (String.eqb x) s.

Definition add (x : string) (s : list string) : list string :=
  if has x s then s else s ++ [x].

Definition delete (x : string) (s : list string) : list string :=
  List.filter (fun y => negb (String.eqb x y)) s.

Definition size (s : list string) : nat := length s.

End JsSet.

(* ===================================================================== *)
(** ** Strings: [trim], [includes] *)
(* ===================================================================== *)

(** White space and line terminators of ECMAScript that fit in one byte:
    TAB, LF, VT, FF, CR, SP and NBSP. *)
Definition isWhiteSpace (c : ascii) : bool :=
  let n := nat_of_ascii c in
  (n =? 9)%nat || (n =? 10)%nat || (n =? 11)%nat || (n =? 12)%nat
  || (n =? 13)%nat || (n =? 32)%nat || (n =? 160)%nat.

Fixpoint trimStartChars (l : list ascii) : list ascii :=
  match l with
  | [] => []
  | c :: r => if isWhiteSpace c then trimStartChars r else l
  end.

(** [String.prototype.trim] *)
Definition trim (s : string) : string :=
  string_of_list_ascii
    (List.rev (trimStartChars (List.rev (trimStartChars (list_ascii_of_string s))))).

(** [String.prototype.includes] *)
Fixpoint includes (needle hay : string) : bool :=
  String.prefix needle hay
  || match hay with
     | EmptyString => false
     | String _ r => includes needle r
     end.

Definition dquote : string := String (ascii_of_nat 34) EmptyString.

(* ===================================================================== *)
(** ** Data model *)
(* ===================================================================== *)

(** The value stored in [userSockets] for an authenticated socket. *)
Module UserInfo.
Record t := mk {
  userId : string;
  username : string;
  socketId : string;
  connectedAt : N
}.
End UserInfo.

Module ChatMessage.
Record t := mk {
  id : N;
  streamId : string;
  userId : string;
  username : string;
  message : string;
  timestamp : N;
  avatar : string
}.
End ChatMessage.

Inductive NotificationType :=
| stream_started | stream_ended | new_follower | user_online
| user_offline | chat_mention | system_announcement.

Inductive NotificationData :=
| UserData (userId username : string)
| MentionData (streamId : string) (chatMessage : ChatMessage.t)
| OpaqueData (payload : string).

Module Notification.
Record t := mk {
  type : NotificationType;
  title : string;
  message : string;
  data : NotificationData;
  timestamp : N
}.
End Notification.

(** Documents of the [User] collection (the paths the service reads or
    writes). *)
Module User.
Record doc := mk {
  username : string;
  avatar : string;
  isStreamer : bool;
  followers : list string;
  isOnline : bool;
  lastSeen : N;
  isChatBanned : bool
}.

Definition setOnline (b : bool) (t : N) (d : doc) : doc :=
  mk (username d) (avatar d) (isStreamer d) (followers d) b t (isChatBanned d).
End User.

(** Documents of the [Stream] collection.  [lastViewerUpdate], which
    [updateStreamViewerCount] also passes, is not a path of the schema. *)
Module Stream.
Record doc := mk {
  streamer : string;
  viewerCount : nat
}.

Definition setViewerCount (n : nat) (d : doc) : doc := mk (streamer d) n.
End Stream.

(** Socket.IO rooms: [`user_${userId}`] and [`stream_${streamId}`] of the
    service, and [`stream-${streamId}`] of the listeners in server.js. *)
Inductive Room :=
| user_room (userId : string)
| stream_room (streamId : string)
| server_stream_room (streamId : string).

Definition Room_eqb (a b : Room) : bool :=
  match a, b with
  | user_room x, user_room y => String.eqb x y
  | stream_room x, stream_room y => String.eqb x y
  | server_stream_room x, server_stream_room y => String.eqb x y
  | _, _ => false
  end.

(** A pending [setTimeout] callback of the disconnect handler, with the
    [userInfo] it closes over. *)
Record Timer := mkTimer {
  due : N;
  timer_userId : string;
  timer_username : string
}.

Record State := mkState {
  connectedUsers : list (string * string);              (* userId -> socketId *)
  userSockets : list (string * UserInfo.t);             (* socketId -> user info *)
  streamRooms : list (string * list string);            (* streamId -> Set of socketIds *)
  notificationQueue : list (string * list Notification.t); (* userId -> Array *)
  users : gmap string User.doc;
  streams : gmap string Stream.doc;
  joined : list (string * Room);    (* Socket.IO adapter: socket is in room *)
  now : N;                          (* clock, milliseconds *)
  timers : list Timer
}.

(** The service as [new NotificationService()] leaves it, in front of a
    database holding the given documents. *)
Definition boot (us : gmap string User.doc) (ss : gmap string Stream.doc) : State :=
  mkState [] [] [] [] us ss [] 0%N [].

Definition init : State := boot ∅ ∅.

Definition with_connectedUsers f st :=
  mkState (f (connectedUsers st)) (userSockets st) (streamRooms st)
          (notificationQueue st) (users st) (streams st) (joined st) (now st) (timers st).
Definition with_userSockets f st :=
  mkState (connectedUsers st) (f (userSockets st)) (streamRooms st)
          (notificationQueue st) (users st) (streams st) (joined st) (now st) (timers st).
Definition with_streamRooms f st :=
  mkState (connectedUsers st) (userSockets st) (f (streamRooms st))
          (notificationQueue st) (users st) (streams st) (joined st) (now st) (timers st).
Definition with_notificationQueue f st :=
  mkState (connectedUsers st) (userSockets st) (streamRooms st)
          (f (notificationQueue st)) (users st) (streams st) (joined st) (now st) (timers st).
Definition with_users f st :=
  mkState (connectedUsers st) (userSockets st) (streamRooms st)
          (notificationQueue st) (f (users st)) (streams st) (joined st) (now st) (timers st).
Definition with_streams f st :=
  mkState (connectedUsers st) (userSockets st) (streamRooms st)
          (notificationQueue st) (users st) (f (streams st)) (joined st) (now st) (timers st).
Definition with_joined f st :=
  mkState (connectedUsers st) (userSockets st) (streamRooms st)
          (notificationQueue st) (users st) (streams st) (f (joined st)) (now st) (timers st).
Definition with_now f st :=
  mkState (connectedUsers st) (userSockets st) (streamRooms st)
          (notificationQueue st) (users st) (streams st) (joined st) (f (now st)) (timers st).
Definition with_timers f st :=
  mkState (connectedUsers st) (userSockets st) (streamRooms st)
          (notificationQueue st) (users st) (streams st) (joined st) (now st) (f (timers st)).

(* ===================================================================== *)
(** ** What the hub sends *)
(* ===================================================================== *)

Inductive Target :=
| ToSocket (socket : string)                 (* socket.emit *)
| ToRoom (room : Room)                       (* io.to(room).emit *)
| ToRoomExcept (room : Room) (socket : string). (* socket.to(room).emit *)

Inductive Payload :=
| E_authenticated (message : string)
| E_authentication_error (message : string)
| E_error (message : string)
| E_stream_joined (streamId : string) (viewerCount : nat) (message : string)
| E_viewer_joined (username : string) (viewerCount : nat)
| E_viewer_left (username : string) (viewerCount : nat)
| E_viewer_count_update (streamId : string) (viewerCount : nat)
| E_new_message (chatMessage : ChatMessage.t)
| E_new_message_relayed (streamId : string) (message : option string)
| E_notification (notification : Notification.t).

Definition Emission : Type := Target * Payload.

(** The sockets an emission reaches, given the adapter's room table. *)
Definition members (r : Room) (st : State) : list string :=
  map fst (List.filter (fun p => Room_eqb (snd p) r) (joined st)).

Definition receivers (st : State) (e : Emission) : list string :=
  match fst e with
  | ToSocket s => [s]
  | ToRoom r => members r st
  | ToRoomExcept r s => List.filter (fun x => negb (String.eqb x s)) (members r st)
  end.

(* ===================================================================== *)
(** ** The database and its failures *)
(* ===================================================================== *)

Inductive DbOp :=
| User_findByIdAndUpdate (id : string)
| User_findById (id : string)
| Stream_findByIdAndUpdate (id : string)
| Stream_findById (id : string).

(** [ok op = true]: the call resolves; [false]: its promise is rejected. *)
Definition Outcome := DbOp -> bool.

Definition allOk : Outcome := fun _ => true.

(* ===================================================================== *)
(** ** Handlers: state transformers that record what they emit *)
(* ===================================================================== *)

Definition Handler := State -> State * list Emission.

Definition skip : Handler := fun st => (st, []).

Definition emit (t : Target) (p : Payload) : Handler := fun st => (st, [(t, p)]).

Definition modify (f : State -> State) : Handler := fun st => (f st, []).

Definition reading {A} (f : State -> A) (k : A -> Handler) : Handler :=
  fun st => k (f st) st.

Definition seq (h1 h2 : Handler) : Handler :=
  fun st =>
    let r1 := h1 st in
    let r2 := h2 (fst r1) in
    (fst r2, snd r1 ++ snd r2).

Notation "h1 >>> h2" := (seq h1 h2) (at level 62, right associativity).

Fixpoint for_each {A} (xs : list A) (body : A -> Handler) : Handler :=
  match xs with
  | [] => skip
  | x :: r => body x >>> for_each r body
  end.

(** [socket.join(room)], [socket.leave(room)], and the adapter's cleanup
    that precedes the [disconnect] event. *)
Definition in_room (socket : string) (r : Room) (p : string * Room) : bool :=
  String.eqb (fst p) socket && Room_eqb (snd p) r.

Definition socket_join (socket : string) (r : Room) : Handler :=
  modify (with_joined (fun j =>
    if existsb (in_room socket r) j then j else j ++ [(socket, r)])).

Definition socket_leave (socket : string) (r : Room) : Handler :=
  modify (with_joined (List.filter (fun p => negb (in_room socket r p)))).

Definition socket_leave_all (socket : string) : Handler :=
  modify (with_joined (List.filter (fun p => negb (String.eqb (fst p) socket)))).

(* ===================================================================== *)
(** ** NotificationService *)
(* ===================================================================== *)

Definition User_find (ok : Outcome) (id : string) (st : State) : option User.doc :=
  if ok (User_findById id) then users st !! id else None.

Definition Stream_find (ok : Outcome) (id : string) (st : State) : option Stream.doc :=
  if ok (Stream_findById id) then streams st !! id else None.

(** [.populate('followers')]: the followers whose documents exist. *)
Definition populate (st : State) (ids : list string) : list string :=
  List.filter (fun i => match users st !! i with Some _ => true | None => false end) ids.

(** [this.notificationQueue.get(userId).push(notification)], after the
    queue has been created when missing. *)
Definition enqueue (userId : string) (n : Notification.t)
    (q : list (string * list Notification.t)) : list (string * list Notification.t) :=
  match JsMap.get userId q with
  | Some pending => JsMap.set userId (pending ++ [n]) q
  | None => JsMap.set userId [n] q
  end.

(** Socket ids are never empty, so [if (socketId)] tests the presence of
    the entry. *)
Definition sendNotificationToUser (userId : string) (n : Notification.t) : Handler :=
  reading (fun st => JsMap.get userId (connectedUsers st)) (fun socketId =>
    match socketId with
    | Some _ => emit (ToRoom (user_room userId)) (E_notification n)
    | None => modify (with_notificationQueue (enqueue userId n))
    end).

Definition sendPendingNotifications (userId : string) : Handler :=
  reading (fun st => JsMap.get userId (notificationQueue st)) (fun pendingNotifications =>
    match pendingNotifications with
    | Some (n :: r) =>
        for_each (n :: r) (fun notification =>
          emit (ToRoom (user_room userId)) (E_notification notification)) >>>
        modify (with_notificationQueue (JsMap.delete userId))
    | _ => skip
    end).

(** [followerId.toString()] is taken to be the follower's id. *)
Definition notifyFollowersUserOnline (ok : Outcome) (userId username : string) : Handler :=
  reading (User_find ok userId) (fun user =>
    match user with
    | None => skip
    | Some user =>
        reading (fun st => populate st (User.followers user)) (fun followers =>
          match followers with
          | [] => skip
          | _ =>
              reading now (fun t =>
                let notification :=
                  Notification.mk user_online "User Online"
                    (username ++ " is now online") (UserData userId username) t in
                if User.isStreamer user then
                  for_each followers (fun followerId =>
                    sendNotificationToUser followerId notification)
                else skip)
          end)
    end).

Definition notifyFollowersUserOffline (ok : Outcome) (userId username : string) : Handler :=
  reading (User_find ok userId) (fun user =>
    match user with
    | None => skip
    | Some user =>
        if User.isStreamer user then
          reading now (fun t =>
            let notification :=
              Notification.mk user_offline "User Offline"
                (username ++ " is now offline") (UserData userId username) t in
            reading (fun st => JsMap.keys (connectedUsers st)) (fun onlineFollowers =>
              for_each onlineFollowers (fun followerId =>
                sendNotificationToUser followerId notification)))
        else skip
    end).

Definition notifyStreamerMention (ok : Outcome) (streamId : string)
    (chatMessage : ChatMessage.t) : Handler :=
  reading (Stream_find ok streamId) (fun stream =>
    match stream with
    | None => skip
    | Some stream =>
        reading now (fun t =>
          sendNotificationToUser (Stream.streamer stream)
            (Notification.mk chat_mention "Chat Mention"
               (ChatMessage.username chatMessage ++ " mentioned you in chat: "
                ++ dquote ++ ChatMessage.message chatMessage ++ dquote)
               (MentionData streamId chatMessage) t))
    end).

(** The write and the broadcast share one [try]: a rejected write skips
    the broadcast, and the [catch] only logs. *)
Definition updateStreamViewerCount (ok : Outcome) (streamId : string)
    (viewerCount : nat) : Handler :=
  if ok (Stream_findByIdAndUpdate streamId) then
    modify (with_streams (alter (Stream.setViewerCount viewerCount) streamId)) >>>
    emit (ToRoom (stream_room streamId)) (E_viewer_count_update streamId viewerCount)
  else skip.

(** *** Socket event handlers *)

Definition authenticate (ok : Outcome) (socket userId username : string) : Handler :=
  reading now (fun t =>
    modify (with_userSockets (JsMap.set socket (UserInfo.mk userId username socket t))) >>>
    modify (with_connectedUsers (JsMap.set userId socket)) >>>
    socket_join socket (user_room userId) >>>
    if ok (User_findByIdAndUpdate userId) then
      modify (with_users (alter (User.setOnline true t) userId)) >>>
      sendPendingNotifications userId >>>
      emit (ToSocket socket) (E_authenticated "Successfully authenticated") >>>
      notifyFollowersUserOnline ok userId username
    else
      emit (ToSocket socket) (E_authentication_error "Authentication failed")).

Definition join_stream (ok : Outcome) (socket streamId : string) : Handler :=
  reading (fun st => JsMap.get socket (userSockets st)) (fun userInfo =>
    match userInfo with
    | None => emit (ToSocket socket) (E_error "Not authenticated")
    | Some userInfo =>
        socket_join socket (stream_room streamId) >>>
        reading (fun st => JsMap.get streamId (streamRooms st)) (fun room =>
          let socketSet :=
            JsSet.add socket (match room with Some s => s | None => [] end) in
          modify (with_streamRooms (JsMap.set streamId socketSet)) >>>
          let viewerCount := JsSet.size socketSet in
          updateStreamViewerCount ok streamId viewerCount >>>
          emit (ToRoomExcept (stream_room streamId) socket)
               (E_viewer_joined (UserInfo.username userInfo) viewerCount) >>>
          emit (ToSocket socket)
               (E_stream_joined streamId viewerCount "Successfully joined stream"))
    end).

Definition leave_stream (ok : Outcome) (socket streamId : string) : Handler :=
  reading (fun st => JsMap.get socket (userSockets st)) (fun userInfo =>
    match userInfo with
    | None => skip
    | Some userInfo =>
        socket_leave socket (stream_room streamId) >>>
        reading (fun st => JsMap.get streamId (streamRooms st)) (fun room =>
          match room with
          | Some s =>
              let socketSet := JsSet.delete socket s in
              modify (with_streamRooms (JsMap.set streamId socketSet)) >>>
              let viewerCount := JsSet.size socketSet in
              updateStreamViewerCount ok streamId viewerCount >>>
              emit (ToRoomExcept (stream_room streamId) socket)
                   (E_viewer_left (UserInfo.username userInfo) viewerCount)
          | None => skip
          end)
    end).

(** [message] is [None] when the payload carries no message.
    [saveChatMessage] only logs and is left out. *)
Definition chat_message (ok : Outcome) (socket streamId : string)
    (message : option string) : Handler :=
  reading (fun st => JsMap.get socket (userSockets st)) (fun userInfo =>
    match userInfo, message with
    | None, _ => emit (ToSocket socket) (E_error "Not authenticated")
    | Some _, None => emit (ToSocket socket) (E_error "Message cannot be empty")
    | Some userInfo, Some message =>
        if (String.length message =? 0)%nat || (String.length (trim message) =? 0)%nat
        then emit (ToSocket socket) (E_error "Message cannot be empty")
        else if (500 <? String.length message)%nat
        then emit (ToSocket socket) (E_error "Message too long")
        else
          reading (User_find ok (UserInfo.userId userInfo)) (fun user =>
            match user with
            | None => emit (ToSocket socket) (E_error "Failed to send message")
            | Some user =>
                if User.isChatBanned user
                then emit (ToSocket socket) (E_error "You are banned from chat")
                else
                  reading now (fun t =>
                    let chatMessage :=
                      ChatMessage.mk t streamId (UserInfo.userId userInfo)
                        (UserInfo.username userInfo) (trim message) t
                        (User.avatar user) in
                    emit (ToRoom (stream_room streamId)) (E_new_message chatMessage) >>>
                    if includes "@streamer" message
                    then notifyStreamerMention ok streamId chatMessage
                    else skip)
            end)
    end).

(** The callback given to [setTimeout] by the disconnect handler.  It has
    no [try]: a rejected status write ends it before the followers are
    notified. *)
Definition offlineTimeout (ok : Outcome) (userId username : string) : Handler :=
  reading (fun st => JsMap.has userId (connectedUsers st)) (fun connected =>
    if connected then skip
    else if ok (User_findByIdAndUpdate userId) then
      reading now (fun t =>
        modify (with_users (alter (User.setOnline false t) userId))) >>>
      notifyFollowersUserOffline ok userId username
    else skip).

Definition offlineDelay : N := 30000.

Definition leaveRoomOnDisconnect (ok : Outcome) (socket username streamId : string)
  : Handler :=
  reading (fun st => JsMap.get streamId (streamRooms st)) (fun room =>
    match room with
    | Some s =>
        if JsSet.has socket s then
          let socketSet := JsSet.delete socket s in
          modify (with_streamRooms (JsMap.set streamId socketSet)) >>>
          let viewerCount := JsSet.size socketSet in
          updateStreamViewerCount ok streamId viewerCount >>>
          emit (ToRoomExcept (stream_room streamId) socket)
               (E_viewer_left username viewerCount)
        else skip
    | None => skip
    end).

Definition disconnect (ok : Outcome) (socket : string) : Handler :=
  socket_leave_all socket >>>
  reading (fun st => JsMap.get socket (userSockets st)) (fun userInfo =>
    match userInfo with
    | None => skip
    | Some userInfo =>
        modify (with_connectedUsers (JsMap.delete (UserInfo.userId userInfo))) >>>
        modify (with_userSockets (JsMap.delete socket)) >>>
        reading (fun st => JsMap.keys (streamRooms st)) (fun streamIds =>
          for_each streamIds
            (leaveRoomOnDisconnect ok socket (UserInfo.username userInfo))) >>>
        reading now (fun t =>
          modify (with_timers (fun ts =>
            ts ++ [mkTimer (t + offlineDelay) (UserInfo.userId userInfo)
                           (UserInfo.username userInfo)])))
    end).

(** *** Time *)

Definition expired (deadline : N) (t : Timer) : bool := (due t <=? deadline)%N.

Definition fire (ok : Outcome) (t : Timer) : Handler :=
  modify (with_now (fun _ => due t)) >>>
  offlineTimeout ok (timer_userId t) (timer_username t).

(** [ms] milliseconds pass: the callbacks that come due run, in the order
    they were scheduled (all have the same delay). *)
Definition elapse (ok : Outcome) (ms : N) : Handler :=
  reading now (fun t0 =>
    let deadline := (t0 + ms)%N in
    reading (fun st => List.filter (expired deadline) (timers st)) (fun ts =>
      modify (with_timers (List.filter (fun t => negb (expired deadline t)))) >>>
      for_each ts (fire ok) >>>
      modify (with_now (fun _ => deadline)))).

(** *** Events and traces *)

Inductive Event :=
| Authenticate (socket userId username : string)
| JoinStream (socket streamId : string)
| LeaveStream (socket streamId : string)
| ChatMessageEv (socket streamId : string) (message : option string)
| Disconnect (socket : string)
| Notify (userId : string) (n : Notification.t)  (* a caller of sendNotificationToUser *)
| Elapse (ms : N).

(** The listeners of the service. *)
Definition service (ok : Outcome) (ev : Event) : Handler :=
  match ev with
  | Authenticate socket userId username => authenticate ok socket userId username
  | JoinStream socket streamId => join_stream ok socket streamId
  | LeaveStream socket streamId => leave_stream ok socket streamId
  | ChatMessageEv socket streamId message => chat_message ok socket streamId message
  | Disconnect socket => disconnect ok socket
  | Notify userId n => sendNotificationToUser userId n
  | Elapse ms => elapse ok ms
  end.

(** server.js installs listeners of its own on every connection, before
    the service does: [join-stream] joins [`stream-${streamId}`], and
    [chat-message] passes the payload on, as it came, to the other
    sockets of that room under the name [new-message]. *)
Definition server_js (ev : Event) : Handler :=
  match ev with
  | JoinStream socket streamId => socket_join socket (server_stream_room streamId)
  | ChatMessageEv socket streamId message =>
      emit (ToRoomExcept (server_stream_room streamId) socket)
           (E_new_message_relayed streamId message)
  | _ => skip
  end.

(** An event runs the listeners in the order they were installed. *)
Definition step (ok : Outcome) (ev : Event) : Handler :=
  server_js ev >>> service ok ev.

(** A trace gives each event together with the fate of the database calls
    its handler makes. *)
Definition run (trace : list (Outcome * Event)) : Handler :=
  for_each trace (fun e => step (fst e) (snd e)).

(* ===================================================================== *)
(** ** Viewer counts *)
(* ===================================================================== *)

(** The [viewerCount] an emission broadcasts to the room of [streamId]. *)
Definition count_of (streamId : string) (e : Emission) : option nat :=
  match e with
  | (ToRoom (stream_room r), E_viewer_count_update _ c)
  | (ToRoomExcept (stream_room r) _, E_viewer_joined _ c)
  | (ToRoomExcept (stream_room r) _, E_viewer_left _ c) =>
      if String.eqb r streamId then Some c else None
  | _ => None
  end.

(** The count carried by the last such broadcast, if there was one. *)
Fixpoint last_count (streamId : string) (out : list Emission) : option nat :=
  match out with
  | [] => None
  | e :: r =>
      match last_count streamId r with
      | Some c => Some c
      | None => count_of streamId e
      end
  end.

(** The size of the member set tracked for [streamId], if one is tracked. *)
Definition room_size (streamId : string) (st : State) : option nat :=
  option_map JsSet.size (JsMap.get streamId (streamRooms st)).


(** [quiet h]: [h] neither touches [streamRooms] nor broadcasts a count. *)
Definition quiet (h : Handler) : Prop :=
  forall st,
    streamRooms (fst (h st)) = streamRooms st
    /\ forall streamId, last_count streamId (snd (h st)) = None.

(* ===================================================================== *)
(** ** Invariants and emitted payloads *)
(* ===================================================================== *)

(** [maintains I Q h]: from a state satisfying [I], the handler [h] ends
    in a state satisfying [I], and everything it emits satisfies [Q]. *)
Definition maintains (I : State -> Prop) (Q : Emission -> Prop) (h : Handler) : Prop :=
  forall st, I st -> I (fst (h st)) /\ List.Forall Q (snd (h st)).

(* ===================================================================== *)
(** ** The pending-notification queue *)
(* ===================================================================== *)

(** What is queued for a user (an absent queue holds nothing). *)
Definition pending (userId : string) (st : State) : list Notification.t :=
  match JsMap.get userId (notificationQueue st) with
  | Some l => l
  | None => []
  end.

(** The notifications of a batch that are addressed to [userId]. *)
Definition to_user (userId : string) (sends : list (string * Notification.t))
  : list Notification.t :=
  map snd (List.filter (fun s => String.eqb (fst s) userId) sends).

(** A batch of [sendNotificationToUser] calls, as a trace. *)
Definition notifies (sends : list (string * Notification.t)) : list (Outcome * Event) :=
  map (fun s => (allOk, Notify (fst s) (snd s))) sends.

Definition same_apart_from_queue (st st' : State) : Prop :=
  connectedUsers st' = connectedUsers st /\ userSockets st' = userSockets st
  /\ streamRooms st' = streamRooms st /\ users st' = users st
  /\ streams st' = streams st /\ joined st' = joined st
  /\ now st' = now st /\ timers st' = timers st.

(** The notice [notifyFollowersUserOnline] builds. *)
Definition online_notice (userId username : string) (t : N) : Notification.t :=
  Notification.mk user_online "User Online" (username ++ " is now online")
    (UserData userId username) t.

(** While [userId] is connected with nothing pending and [socket] is in
    the user's room, this stays so. *)
Definition flushed (userId socket : string) (t : N) (st : State) : Prop :=
  JsMap.has userId (connectedUsers st) = true
  /\ pending userId st = []
  /\ In socket (members (user_room userId) st)
  /\ now st = t.

Definition authenticated_ack (socket : string) : Emission :=
  (ToSocket socket, E_authenticated "Successfully authenticated").

(** *** Sample data for the examples *)

Definition notice (text : string) : Notification.t :=
  Notification.mk new_follower "New Follower" text (OpaqueData "") 0.

Definition sample_sends : list (string * Notification.t) :=
  [("u1", notice "first"); ("u2", notice "for someone else"); ("u1", notice "second")].

(** Every database call succeeds except the status write on [User]. *)
Definition statusWriteFails : Outcome :=
  fun op => match op with User_findByIdAndUpdate _ => false | _ => true end.

(** Every database call succeeds except the count write on [Stream]. *)
Definition countWriteFails : Outcome :=
  fun op => match op with Stream_findByIdAndUpdate _ => false | _ => true end.

(* ===================================================================== *)
(** ** Rejected count writes *)
(* ===================================================================== *)

(** Two states that agree on everything but the [Stream] collection. *)
Definition same_but_streams (a b : State) : Prop :=
  connectedUsers a = connectedUsers b /\ userSockets a = userSockets b
  /\ streamRooms a = streamRooms b /\ notificationQueue a = notificationQueue b
  /\ users a = users b /\ joined a = joined b
  /\ now a = now b /\ timers a = timers b.

(** Is this emission one whose count write went through? *)
Definition write_succeeded (ok : Outcome) (e : Emission) : bool :=
  match e with
  | (_, E_viewer_count_update s _) => ok (Stream_findByIdAndUpdate s)
  | _ => true
  end.

(** [degrades ok h h']: [h] behaves as [h'] does, except that the count
    updates whose write [ok] rejects are not sent. *)
Definition degrades (ok : Outcome) (h h' : Handler) : Prop :=
  forall st st',
    same_but_streams st st' ->
    same_but_streams (fst (h st)) (fst (h' st'))
    /\ snd (h st) = List.filter (write_succeeded ok) (snd (h' st')).

(** The events that change room membership. *)
Definition room_event (ev : Event) : bool :=
  match ev with
  | JoinStream _ _ | LeaveStream _ _ | Disconnect _ => true
  | _ => false
  end.

(** A viewer who has authenticated on socket [s1]. *)
Definition one_viewer : State :=
  fst (run [(allOk, Authenticate "s1" "u1" "ann")] init).

(* ===================================================================== *)
(** ** Presence: the delayed offline transition *)
(* ===================================================================== *)

(** The notice [notifyFollowersUserOffline] builds. *)
Definition offline_notice (userId username : string) (t : N) : Notification.t :=
  Notification.mk user_offline "User Offline" (username ++ " is now offline")
    (UserData userId username) t.

Definition is_offline_notice_about (userId : string) (n : Notification.t) : bool :=
  match Notification.type n, Notification.data n with
  | user_offline, UserData u _ => String.eqb u userId
  | _, _ => false
  end.








(** The pending timers are listed by due time, none due later than
    [offlineDelay] from now: firing them in list order, as [elapse] does,
    is firing them in the order of their due times. *)
Definition timers_in_order (st : State) : Prop :=
  StronglySorted (fun a b => (due a <= due b)%N) (timers st)
  /\ List.Forall (fun t => (due t <= now st + offlineDelay)%N) (timers st).

(** *** A small world for the presence examples: [u1] streams and is
    followed by [u2]; [u3] follows nobody. *)

Definition streamer_doc : User.doc := User.mk "ann" "" true ["u2"] false 0 false.

Definition viewer_doc (name : string) : User.doc :=
  User.mk name "" false [] false 0 false.

Definition presence_world : State :=
  with_users (fun _ => <["u1" := streamer_doc]>
                       (<["u2" := viewer_doc "bob"]>
                       (<["u3" := viewer_doc "cy"]> ∅))) init.


(* ===================================================================== *)
(** ** Who is told that a streamer went offline *)
(* ===================================================================== *)

(** The notifications an output delivers to the personal room of a user. *)
Definition notification_for (userId : string) (e : Emission) : option Notification.t :=
  match e with
  | (ToRoom (user_room u), E_notification n) =>
      if String.eqb u userId then Some n else None
  | _ => None
  end.

Fixpoint received (userId : string) (out : list Emission) : list Notification.t :=
  match out with
  | [] => []
  | e :: r =>
      match notification_for userId e with
      | Some n => n :: received userId r
      | None => received userId r
      end
  end.

Fixpoint distinct (l : list string) : bool :=
  match l with
  | [] => true
  | x :: r => negb (existsb (String.eqb x) r) && distinct r
  end.

(** [u2], the follower, is connected when the streamer [u1] leaves. *)
Definition follower_watching : State :=
  fst (run [ (allOk, Authenticate "b" "u2" "bob");
             (allOk, Authenticate "a" "u1" "ann");
             (allOk, Disconnect "a") ] presence_world).

(** The streamer [u1] leaves while [u3], who does not follow [u1], is
    connected and the follower [u2] is not. *)
Definition streamer_leaves : list (Outcome * Event) :=
  [ (allOk, Authenticate "b" "u3" "cy");
    (allOk, Authenticate "a" "u1" "ann");
    (allOk, Disconnect "a") ].

(* ===================================================================== *)
(** ** Authenticating twice *)
(* ===================================================================== *)

Definition is_failure (e : Emission) : bool :=
  match snd e with
  | E_error _ | E_authentication_error _ => true
  | _ => false
  end.

(* ===================================================================== *)
(** ** Chat *)
(* ===================================================================== *)


(** Is the emission sent under the event name [new-message]? *)
Definition is_new_message (e : Emission) : bool :=
  match snd e with
  | E_new_message _ | E_new_message_relayed _ _ => true
  | _ => false
  end.

Definition validation_errors : list string :=
  ["Message cannot be empty"; "Message too long"].


(** [u1] has been banned from chat; [u2] has not. *)
Definition chat_world : State :=
  with_users (fun _ => <["u1" := User.mk "ann" "" false [] false 0 true]>
                       (<["u2" := viewer_doc "bob"]> ∅)) init.

Definition chatters : State :=
  fst (run [ (allOk, Authenticate "s1" "u1" "ann");
             (allOk, Authenticate "s2" "u2" "bob");
             (allOk, JoinStream "s1" "live1");
             (allOk, JoinStream "s2" "live1") ] chat_world).

Fixpoint replicate_char (n : nat) (c : ascii) : string :=
  match n with
  | O => EmptyString
  | S k => String c (replicate_char k c)
  end.

Definition letter_a : ascii := ascii_of_nat 97.

(** A socket in a room of the service is in the room of the same stream
    that server.js keeps. *)
Definition rooms_shadowed (st : State) : Prop :=
  forall socket streamId,
    In (socket, stream_room streamId) (joined st) ->
    In (socket, server_stream_room streamId) (joined st).

(* ===================================================================== *)
(** ** Leaving a room one is not in *)
(* ===================================================================== *)

(** [s1] watches [live1]; [s2] is authenticated and watches nothing. *)
Definition one_watching : State :=
  fst (run [ (allOk, Authenticate "s1" "u1" "ann");
             (allOk, Authenticate "s2" "u2" "bob");
             (allOk, JoinStream "s1" "live1") ] init).

(* ===================================================================== *)
(** ** Two scenarios, run *)
(* ===================================================================== *)

(** The streamer [u1] authenticates on [a]; the follower [u2]
    authenticates on [b] (and is handed the queued notice that [u1] is
    online), joins the stream, leaves it, and disconnects. *)
Definition short_visit : list (Outcome * Event) :=
  [ (allOk, Authenticate "a" "u1" "ann");
    (allOk, Authenticate "b" "u2" "bob");
    (allOk, JoinStream "b" "live1");
    (allOk, LeaveStream "b" "live1");
    (allOk, Disconnect "b") ].

(* ===================================================================== *)
(** ** What the service reports about itself *)
(* ===================================================================== *)

Definition getOnlineUsersCount (st : State) : nat := JsMap.size (connectedUsers st).

Definition getActiveStreamsCount (st : State) : nat := JsMap.size (streamRooms st).

(** An element of the array [getStreamViewers] returns. *)
Module Viewer.
Record t := mk {
  userId : string;
  username : string
}.
End Viewer.

Definition getStreamViewers (streamId : string) (st : State) : list Viewer.t :=
  match JsMap.get streamId (streamRooms st) with
  | None => []
  | Some socketIds =>
      flat_map (fun socketId =>
        match JsMap.get socketId (userSockets st) with
        | Some userInfo =>
            [Viewer.mk (UserInfo.userId userInfo) (UserInfo.username userInfo)]
        | None => []
        end) socketIds
  end.

Definition viewer_of (info : UserInfo.t) : Viewer.t :=
  Viewer.mk (UserInfo.userId info) (UserInfo.username info).

(* ===================================================================== *)
(** ** Rooms and the sockets in them *)
(* ===================================================================== *)

(** The sockets in the member set of a stream (none when the service
    holds no set for it). *)
Definition room_sockets (streamId : string) (st : State) : list string :=
  match JsMap.get streamId (streamRooms st) with Some s => s | None => [] end.

(** Every socket in a member set has an entry in [userSockets]. *)
Definition members_registered (st : State) : Prop :=
  forall streamId room socket,
    JsMap.get streamId (streamRooms st) = Some room ->
    In socket room -> JsMap.has socket (userSockets st) = true.

(** No member set lists a socket twice. *)
Definition rooms_are_sets (st : State) : Prop :=
  forall streamId room,
    JsMap.get streamId (streamRooms st) = Some room -> List.NoDup room.

Definition rooms_sound (st : State) : Prop :=
  members_registered st /\ rooms_are_sets st.

(** Is the event an [authenticate] for [userId]? *)
Definition authenticates (userId : string) (ev : Event) : bool :=
  match ev with
  | Authenticate _ u _ => String.eqb u userId
  | _ => false
  end.

(** Is the event the [disconnect] of [socket]? *)
Definition closes (socket : string) (ev : Event) : bool :=
  match ev with
  | Disconnect s => String.eqb s socket
  | _ => false
  end.

(** What server.js sends when [sender] posts [message] to a stream. *)
Definition relayed (sender streamId : string) (message : option string) : Emission :=
  (ToRoomExcept (server_stream_room streamId) sender,
   E_new_message_relayed streamId message).

(** The rooms a socket leaves on [leave-stream]. *)
Definition is_service_room (r : Room) : bool :=
  match r with
  | stream_room _ => true
  | _ => false
  end.



(* ===================================================================== *)
(** ** Durations *)
(* ===================================================================== *)





(* ===================================================================== *)
(** ** middleware/auth.js: [loginRateLimit] *)
(* ===================================================================== *)

(** The value kept per address in [global.loginAttempts]. *)
Module Attempts.
Record t := mk {
  count : nat;
  firstAttempt : Z
}.
End Attempts.

Definition windowMs : Z := 15 * 60 * 1000.

Definition maxAttempts : nat := 5.

(** How the middleware ends: [next()], or status 429 with the minutes
    left in its message. *)
Inductive Verdict :=
| next
| status_429 (timeLeft : Z).

Definition stale (now : Z) (data : Attempts.t) : bool :=
  (windowMs <? now - Attempts.firstAttempt data)%Z.

(** The loop that deletes the old entries.  The order of the [Map] plays
    no part here or below, so it is a finite map. *)
Definition cleanUp (now : Z) (attempts : gmap string Attempts.t)
  : gmap string Attempts.t :=
  filter (fun entry => stale now (snd entry) = false) attempts.

(** [Math.ceil(ms / 1000 / 60)] *)
Definition ceil_minutes (ms : Z) : Z := (- ((- ms) / 60000))%Z.

(** One request from [ip] at time [now] (milliseconds), in front of the
    map of attempts; the map is the one object throughout, so what a
    request does to it is there for the next. *)
Definition loginRateLimit (ip : string) (now : Z) (attempts : gmap string Attempts.t)
  : gmap string Attempts.t * Verdict :=
  let attempts := cleanUp now attempts in
  match attempts !! ip with
  | Some userAttempts =>
      if (maxAttempts <=? Attempts.count userAttempts)%nat
      then (attempts,
            status_429 (ceil_minutes
              (Attempts.firstAttempt userAttempts + windowMs - now)))
      else (<[ip := Attempts.mk (S (Attempts.count userAttempts))
                      (Attempts.firstAttempt userAttempts)]> attempts,
            next)
  | None => (<[ip := Attempts.mk 1 now]> attempts, next)
  end.

(** A sequence of requests, each an address and the time it arrives:
    the verdicts, and the map left behind. *)
Fixpoint serve (requests : list (string * Z)) (attempts : gmap string Attempts.t)
  : list (string * Verdict) :=
  match requests with
  | [] => []
  | (ip, now) :: r =>
      (ip, snd (loginRateLimit ip now attempts))
      :: serve r (fst (loginRateLimit ip now attempts))
  end.

Fixpoint attempts_after (requests : list (string * Z))
    (attempts : gmap string Attempts.t) : gmap string Attempts.t :=
  match requests with
  | [] => attempts
  | (ip, now) :: r => attempts_after r (fst (loginRateLimit ip now attempts))
  end.

Definition let_through (ip : string) (served : string * Verdict) : bool :=
  String.eqb (fst served) ip
  && match snd served with next => true | status_429 _ => false end.

Definition from_address (ip : string) (request : string * Z) : bool :=
  String.eqb (fst request) ip.

(* ===================================================================== *)
(** ** routes/streams.js: the pages of a listing *)
(* ===================================================================== *)

(** [.limit(limit * 1).skip((page - 1) * limit)] on the documents that
    match, in the order [.sort] puts them: the query skips first.  [page]
    and [limit] are whole numbers, at least 1. *)
Definition page_of {A} (page limit : nat) (matching : list A) : list A :=
  firstn limit (skipn ((page - 1) * limit) matching).

(** [Math.ceil(total / limit)] *)
Definition pages (total limit : nat) : nat :=
  total / limit + (if (total mod limit =? 0)%nat then 0 else 1).

(* ##################################################################### *)
(** * Part II: what the program does *)
(* ##################################################################### *)

(* ===================================================================== *)
(** ** JavaScript [Map] with string keys *)
(* ===================================================================== *)

Module JsMapFacts.
Import JsMap.
Section JsMapFacts.
Context {V : Type}.
Implicit Types (v : V) (m : list (string * V)).

Lemma get_set_eq k v m : get k (set k v m) = Some v.
Proof.
  induction m as [|[k' v'] r IH]; simpl.
  - now rewrite String.eqb_refl.
  - destruct (String.eqb k k') eqn:E; simpl.
    + now rewrite String.eqb_refl.
    + now rewrite E.
Qed.

Lemma get_set_ne k k' v m : k <> k' -> get k' (set k v m) = get k' m.
Proof.
  intros Hne. induction m as [|[k0 v0] r IH]; simpl.
  - destruct (String.eqb_spec k' k); congruence.
  - destruct (String.eqb_spec k k0) as [->|Hk]; simpl.
    + destruct (String.eqb_spec k' k0); congruence.
    + destruct (String.eqb_spec k' k0); auto.
Qed.

Lemma get_delete_eq k m : get k (delete k m) = None.
Proof.
  induction m as [|[k' v'] r IH]; simpl; auto.
  destruct (String.eqb k k') eqn:E; simpl; auto. now rewrite E.
Qed.

Lemma get_delete_ne k k' m : k <> k' -> get k' (delete k m) = get k' m.
Proof.
  intros Hne. induction m as [|[k0 v0] r IH]; simpl; auto.
  destruct (String.eqb_spec k k0) as [->|Hk]; simpl.
  - destruct (String.eqb_spec k' k0); congruence.
  - destruct (String.eqb_spec k' k0); auto.
Qed.

Lemma has_keys k m : has k m = true <-> In k (keys m).
Proof.
  unfold has. induction m as [|[k' v'] r IH]; simpl.
  - split; [discriminate | tauto].
  - destruct (String.eqb_spec k k') as [->|Hk].
    + split; auto.
    + rewrite IH. split; [auto | intros [H|H]; congruence].
Qed.

Lemma keys_set_in k v m :
  In k (keys m) -> keys (set k v m) = keys m.
Proof.
  induction m as [|[k' v'] r IH]; simpl; [tauto|].
  destruct (String.eqb_spec k k') as [->|Hk]; simpl; auto.
  intros [H|H]; [congruence|]. now rewrite IH.
Qed.

Lemma keys_set_notin k v m :
  ~ In k (keys m) -> keys (set k v m) = keys m ++ [k].
Proof.
  induction m as [|[k' v'] r IH]; simpl; auto.
  destruct (String.eqb_spec k k') as [->|Hk]; simpl.
  - tauto.
  - intros H. rewrite IH; tauto.
Qed.

Lemma keys_delete k m :
  keys (delete k m) = List.filter (fun x => negb (String.eqb k x)) (keys m).
Proof.
  induction m as [|[k' v'] r IH]; simpl; auto.
  destruct (String.eqb k k'); simpl; now rewrite IH.
Qed.

(** Keys stay pairwise distinct, as in a real [Map]. *)
Lemma NoDup_keys_set k v m :
  List.NoDup (keys m) -> List.NoDup (keys (set k v m)).
Proof.
  intros H. destruct (in_dec string_dec k (keys m)) as [Hin|Hin].
  - now rewrite keys_set_in.
  - rewrite keys_set_notin by assumption.
    apply List.NoDup_app; auto.
    + repeat constructor. intros [].
    + intros x Hx [<-|[]]. contradiction.
Qed.

Lemma NoDup_keys_delete k m :
  List.NoDup (keys m) -> List.NoDup (keys (delete k m)).
Proof.
  intros H. rewrite keys_delete. now apply List.NoDup_filter.
Qed.

Lemma count_occ_keys k m :
  List.NoDup (keys m) ->
  count_occ string_dec (keys m) k = if has k m then 1 else 0.
Proof.
  intros H. destruct (has k m) eqn:E.
  - apply has_keys in E. now apply (proj1 (NoDup_count_occ' string_dec _) H).
  - apply count_occ_not_In. intros Hin. apply has_keys in Hin. congruence.
Qed.

End JsMapFacts.
End JsMapFacts.

(* ===================================================================== *)
(** ** JavaScript [Set] of strings *)
(* ===================================================================== *)

Module JsSetFacts.
Import JsSet.

Lemma has_In x s : has x s = true <-> In x s.
Proof.
  unfold has. rewrite existsb_exists. split.
  - intros [y [Hy E]]. apply String.eqb_eq in E. now subst.
  - intros H. exists x. split; auto. apply String.eqb_refl.
Qed.

Lemma delete_absent x s : has x s = false -> delete x s = s.
Proof.
  unfold has, delete. induction s as [|y r IH]; simpl; auto.
  destruct (String.eqb x y); simpl; [discriminate|].
  intros H. now rewrite IH.
Qed.

Lemma has_delete x s : has x (delete x s) = false.
Proof.
  unfold has, delete. induction s as [|y r IH]; simpl; auto.
  destruct (String.eqb x y) eqn:E; simpl; auto. now rewrite E.
Qed.

Lemma size_delete_present x s :
  List.NoDup s -> has x s = true -> S (size (delete x s)) = size s.
Proof.
  unfold size. induction 1 as [|y r Hy Hr IH]; simpl.
  - discriminate.
  - unfold has, delete. simpl.
    destruct (String.eqb_spec x y) as [->|Hne]; simpl.
    + intros _. f_equal.
      assert (E : has y r = false).
      { destruct (has y r) eqn:E; auto. apply has_In in E. contradiction. }
      apply (f_equal (@List.length string)). exact (delete_absent _ _ E).
    + intros H. f_equal. auto.
Qed.

Lemma size_add_absent x s : has x s = false -> size (add x s) = S (size s).
Proof.
  unfold add, size. intros ->. rewrite length_app. simpl. lia.
Qed.

Lemma size_add_present x s : has x s = true -> size (add x s) = size s.
Proof. unfold add. now intros ->. Qed.

Lemma NoDup_add x s : List.NoDup s -> List.NoDup (add x s).
Proof.
  unfold add. intros H. destruct (has x s) eqn:E; auto.
  apply List.NoDup_app; auto.
  - repeat constructor. intros [].
  - intros y Hy [<-|[]]. apply has_In in Hy. congruence.
Qed.

Lemma NoDup_delete x s : List.NoDup s -> List.NoDup (delete x s).
Proof. intros H. now apply List.NoDup_filter. Qed.

End JsSetFacts.

(* ===================================================================== *)
(** ** Reasoning about handlers *)
(* ===================================================================== *)

Lemma seq_state h1 h2 st : fst ((h1 >>> h2) st) = fst (h2 (fst (h1 st))).
Proof. reflexivity. Qed.

Lemma seq_out h1 h2 st :
  snd ((h1 >>> h2) st) = snd (h1 st) ++ snd (h2 (fst (h1 st))).
Proof. reflexivity. Qed.

Lemma run_cons ok ev trace st :
  run ((ok, ev) :: trace) st
  = (fst (run trace (fst (step ok ev st))),
     snd (step ok ev st) ++ snd (run trace (fst (step ok ev st)))).
Proof. reflexivity. Qed.

Lemma step_notify ok userId n st :
  step ok (Notify userId n) st = sendNotificationToUser userId n st.
Proof.
  unfold step, seq. simpl. now destruct (sendNotificationToUser userId n st).
Qed.

Lemma run_app t1 t2 st :
  run (t1 ++ t2) st
  = (fst (run t2 (fst (run t1 st))), snd (run t1 st) ++ snd (run t2 (fst (run t1 st)))).
Proof.
  revert st. induction t1 as [|[ok ev] r IH]; intros st.
  - simpl. now destruct (run t2 st).
  - change (((ok, ev) :: r) ++ t2) with ((ok, ev) :: (r ++ t2)).
    rewrite !run_cons, IH. simpl. now rewrite app_assoc.
Qed.

Ltac hsimpl :=
  repeat (unfold seq, reading, modify, emit, skip, socket_join, socket_leave,
          socket_leave_all in *; simpl in * ).

(** A property of handlers that is kept by sequencing is kept by loops. *)
Section Closure.
Variable P : Handler -> Prop.
Hypothesis P_skip : P skip.
Hypothesis P_seq : forall h1 h2, P h1 -> P h2 -> P (h1 >>> h2).

Lemma for_each_closed {A} (xs : list A) (body : A -> Handler) :
  (forall x, P (body x)) -> P (for_each xs body).
Proof.
  intros Hbody. induction xs as [|x r IH]; simpl; auto.
Qed.
End Closure.

(* ===================================================================== *)
(** ** Viewer counts *)
(* ===================================================================== *)

Lemma last_count_app streamId o1 o2 :
  last_count streamId (o1 ++ o2)
  = match last_count streamId o2 with
    | Some c => Some c
    | None => last_count streamId o1
    end.
Proof.
  induction o1 as [|e r IH]; simpl.
  - now destruct (last_count streamId o2).
  - rewrite IH. now destruct (last_count streamId o2).
Qed.


Lemma quiet_skip : quiet skip.
Proof. intros st. split; auto. Qed.

Lemma quiet_seq h1 h2 : quiet h1 -> quiet h2 -> quiet (h1 >>> h2).
Proof.
  intros H1 H2 st. rewrite seq_state, seq_out.
  destruct (H1 st) as [R1 C1]. destruct (H2 (fst (h1 st))) as [R2 C2].
  split; [congruence|]. intros streamId.
  now rewrite last_count_app, C2, C1.
Qed.

Lemma quiet_reading {A} (f : State -> A) k :
  (forall a, quiet (k a)) -> quiet (reading f k).
Proof. intros H st. apply H. Qed.

Lemma quiet_for_each {A} (xs : list A) body :
  (forall x, quiet (body x)) -> quiet (for_each xs body).
Proof. apply for_each_closed; [apply quiet_skip | apply quiet_seq]. Qed.





(** Handlers that leave [streamRooms] alone and send no count. *)

Lemma quiet_emit t p :
  (forall streamId, count_of streamId (t, p) = None) -> quiet (emit t p).
Proof.
  intros H st. split; [reflexivity|]. intros streamId. simpl. apply H.
Qed.

Lemma quiet_modify f :
  (forall st, streamRooms (f st) = streamRooms st) -> quiet (modify f).
Proof. intros H st. split; auto. apply H. Qed.

Lemma quiet_sendNotificationToUser userId n : quiet (sendNotificationToUser userId n).
Proof.
  apply quiet_reading. intros [s|].
  - now apply quiet_emit.
  - now apply quiet_modify.
Qed.

Lemma quiet_sendPendingNotifications userId : quiet (sendPendingNotifications userId).
Proof.
  apply quiet_reading. intros [[|n r]|]; try apply quiet_skip.
  apply quiet_seq.
  - apply quiet_for_each. intros x. now apply quiet_emit.
  - now apply quiet_modify.
Qed.

Lemma quiet_notifyFollowersUserOnline ok userId username :
  quiet (notifyFollowersUserOnline ok userId username).
Proof.
  apply quiet_reading. intros [user|]; [|apply quiet_skip].
  apply quiet_reading. intros [|f fs]; [apply quiet_skip|].
  apply quiet_reading. intros t. destruct (User.isStreamer user); [|apply quiet_skip].
  apply quiet_for_each. intros x. apply quiet_sendNotificationToUser.
Qed.



Lemma quiet_authenticate ok socket userId username :
  quiet (authenticate ok socket userId username).
Proof.
  apply quiet_reading. intros t.
  repeat (apply quiet_seq; [now apply quiet_modify|]).
  destruct (ok _).
  - apply quiet_seq; [now apply quiet_modify|].
    apply quiet_seq; [apply quiet_sendPendingNotifications|].
    apply quiet_seq; [now apply quiet_emit|].
    apply quiet_notifyFollowersUserOnline.
  - now apply quiet_emit.
Qed.




(** The three handlers that change a room. *)











(* ===================================================================== *)
(** ** Invariants and emitted payloads *)
(* ===================================================================== *)

Section Maintains.
Variable I : State -> Prop.
Variable Q : Emission -> Prop.

Lemma maintains_skip : maintains I Q skip.
Proof. intros st H. split; [exact H | constructor]. Qed.

Lemma maintains_seq h1 h2 :
  maintains I Q h1 -> maintains I Q h2 -> maintains I Q (h1 >>> h2).
Proof.
  intros H1 H2 st H. rewrite seq_state, seq_out.
  destruct (H1 st H) as [I1 Q1]. destruct (H2 _ I1) as [I2 Q2].
  split; [exact I2 | apply List.Forall_app; auto].
Qed.

Lemma maintains_reading {A} (f : State -> A) k :
  (forall a, maintains I Q (k a)) -> maintains I Q (reading f k).
Proof. intros H st. apply H. Qed.

Lemma maintains_for_each {A} (xs : list A) body :
  (forall x, maintains I Q (body x)) -> maintains I Q (for_each xs body).
Proof. apply for_each_closed; [apply maintains_skip | apply maintains_seq]. Qed.

Lemma maintains_emit t p : Q (t, p) -> maintains I Q (emit t p).
Proof. intros H st HI. split; [exact HI | repeat constructor; exact H]. Qed.

Lemma maintains_modify f :
  (forall st, I st -> I (f st)) -> maintains I Q (modify f).
Proof. intros H st HI. split; [apply H, HI | constructor]. Qed.
End Maintains.

Lemma for_each_emit {A} (xs : list A) (t : A -> Target) (p : A -> Payload) st :
  for_each xs (fun x => emit (t x) (p x)) st = (st, map (fun x => (t x, p x)) xs).
Proof.
  induction xs as [|x r IH]; [reflexivity|].
  cbn [for_each]. unfold seq.
  change (emit (t x) (p x) st) with (st, [(t x, p x)]). cbn [fst snd].
  rewrite IH. reflexivity.
Qed.

(* ===================================================================== *)
(** ** The pending-notification queue *)
(* ===================================================================== *)

Lemma get_enqueue_eq userId n q :
  JsMap.get userId (enqueue userId n q)
  = Some (match JsMap.get userId q with Some l => l | None => [] end ++ [n]).
Proof.
  unfold enqueue. destruct (JsMap.get userId q); now rewrite JsMapFacts.get_set_eq.
Qed.

Lemma get_enqueue_ne userId other n q :
  userId <> other -> JsMap.get other (enqueue userId n q) = JsMap.get other q.
Proof.
  intros H. unfold enqueue.
  destruct (JsMap.get userId q); now rewrite JsMapFacts.get_set_ne.
Qed.

(** For a user without a [connectedUsers] entry the notification goes to
    the tail of the queue; nothing is sent and nothing is removed. *)
Lemma sendNotificationToUser_offline userId n st :
  JsMap.get userId (connectedUsers st) = None ->
  sendNotificationToUser userId n st
  = (with_notificationQueue (enqueue userId n) st, []).
Proof. intros H. unfold sendNotificationToUser, reading. now rewrite H. Qed.

Lemma sendNotificationToUser_online userId socket n st :
  JsMap.get userId (connectedUsers st) = Some socket ->
  sendNotificationToUser userId n st
  = (st, [(ToRoom (user_room userId), E_notification n)]).
Proof. intros H. unfold sendNotificationToUser, reading. now rewrite H. Qed.

Lemma pending_after_enqueue userId n st :
  pending userId (with_notificationQueue (enqueue userId n) st)
  = pending userId st ++ [n].
Proof. unfold pending. simpl. now rewrite get_enqueue_eq. Qed.

Lemma pending_after_enqueue_other userId other n st :
  userId <> other ->
  pending other (with_notificationQueue (enqueue userId n) st) = pending other st.
Proof. intros H. unfold pending. simpl. now rewrite get_enqueue_ne. Qed.

Lemma same_apart_from_queue_refl st : same_apart_from_queue st st.
Proof. repeat split. Qed.

Lemma notify_keeps_rest userId n st :
  same_apart_from_queue st (fst (sendNotificationToUser userId n st)).
Proof.
  unfold sendNotificationToUser, reading.
  destruct (JsMap.get userId (connectedUsers st)); repeat split.
Qed.

Lemma run_notifies_offline userId sends : forall st,
  JsMap.get userId (connectedUsers st) = None ->
  pending userId (fst (run (notifies sends) st))
  = pending userId st ++ to_user userId sends
  /\ same_apart_from_queue st (fst (run (notifies sends) st)).
Proof.
  induction sends as [|[u n] r IH]; intros st Hoff.
  - simpl. rewrite app_nil_r. split; [reflexivity | apply same_apart_from_queue_refl].
  - unfold notifies. simpl map. rewrite run_cons, step_notify. cbn [fst snd].
    fold (notifies r).
    pose proof (notify_keeps_rest u n st) as Hsame.
    set (st1 := fst (sendNotificationToUser u n st)) in *.
    assert (Hoff1 : JsMap.get userId (connectedUsers st1) = None).
    { destruct Hsame as [-> _]. exact Hoff. }
    destruct (IH st1 Hoff1) as [Hp Hs]. split.
    + rewrite Hp. unfold to_user. simpl.
      destruct (String.eqb_spec u userId) as [->|Hne]; simpl.
      * subst st1. rewrite sendNotificationToUser_offline by assumption.
        simpl. rewrite pending_after_enqueue. now rewrite <- app_assoc.
      * f_equal. subst st1. unfold sendNotificationToUser, reading.
        destruct (JsMap.get u (connectedUsers st)); simpl; auto.
        now apply pending_after_enqueue_other.
    + unfold same_apart_from_queue in *.
      destruct Hsame as (?&?&?&?&?&?&?&?), Hs as (?&?&?&?&?&?&?&?).
      repeat split; congruence.
Qed.

(** [sendPendingNotifications] sends the whole queue, in order, to the
    user's own room and drops the queue. *)
Lemma sendPendingNotifications_spec userId st :
  snd (sendPendingNotifications userId st)
  = map (fun n => (ToRoom (user_room userId), E_notification n)) (pending userId st)
  /\ pending userId (fst (sendPendingNotifications userId st)) = []
  /\ same_apart_from_queue st (fst (sendPendingNotifications userId st)).
Proof.
  unfold sendPendingNotifications, reading, pending.
  destruct (JsMap.get userId (notificationQueue st)) as [[|n r]|] eqn:E.
  - simpl. rewrite E. repeat split.
  - rewrite seq_state, seq_out.
    rewrite (for_each_emit (n :: r) (fun _ => ToRoom (user_room userId)) E_notification).
    cbn [fst snd modify with_notificationQueue notificationQueue].
    rewrite JsMapFacts.get_delete_eq, app_nil_r. repeat split.
  - simpl. rewrite E. repeat split.
Qed.

Lemma flushed_sendNotificationToUser userId socket t Q follower n :
  Q (ToRoom (user_room follower), E_notification n) ->
  maintains (flushed userId socket t) Q (sendNotificationToUser follower n).
Proof.
  intros HQ st (Hc & Hp & Hm & Ht). unfold sendNotificationToUser, reading.
  destruct (JsMap.get follower (connectedUsers st)) eqn:E; simpl.
  - split; [repeat split; assumption | repeat constructor; exact HQ].
  - split; [|constructor]. repeat split; auto.
    rewrite pending_after_enqueue_other; auto.
    intros ->. unfold JsMap.has in Hc. now rewrite E in Hc.
Qed.

Lemma flushed_notifyFollowersUserOnline ok userId username socket t :
  maintains (flushed userId socket t)
    (fun e => exists follower,
       e = (ToRoom (user_room follower), E_notification (online_notice userId username t)))
    (notifyFollowersUserOnline ok userId username).
Proof.
  apply maintains_reading. intros [user|]; [|apply maintains_skip].
  apply maintains_reading. intros [|f fs]; [apply maintains_skip|].
  intros st H. assert (Ht : now st = t) by apply H. revert st H Ht.
  unfold reading. intros st H ->.
  destruct (User.isStreamer user); [|now apply maintains_skip].
  apply maintains_for_each; [|exact H]. intros follower.
  apply flushed_sendNotificationToUser. now exists follower.
Qed.

Lemma Room_eqb_refl r : Room_eqb r r = true.
Proof. destruct r; simpl; apply String.eqb_refl. Qed.

Lemma socket_join_member socket r st :
  In socket (members r (fst (socket_join socket r st))).
Proof.
  unfold socket_join, modify, members. simpl.
  destruct (existsb (in_room socket r) (joined st)) eqn:E.
  - apply existsb_exists in E. destruct E as [[s r'] [Hin Hp]].
    unfold in_room in Hp. simpl in Hp. apply andb_true_iff in Hp.
    destruct Hp as [Hs Hr]. apply String.eqb_eq in Hs. subst s.
    apply in_map_iff. exists (socket, r'). split; [reflexivity|].
    apply filter_In. now split.
  - apply in_map_iff. exists (socket, r). split; [reflexivity|].
    apply filter_In. split; [apply in_or_app; right; now left|].
    apply Room_eqb_refl.
Qed.

(** What [authenticate] does when its status write succeeds, in terms of
    the state it starts in. *)
Lemma authenticate_ok ok socket userId username st :
  ok (User_findByIdAndUpdate userId) = true ->
  exists online,
    snd (authenticate ok socket userId username st)
    = map (fun n => (ToRoom (user_room userId), E_notification n)) (pending userId st)
      ++ authenticated_ack socket :: online
    /\ List.Forall (fun e => exists follower,
         e = (ToRoom (user_room follower),
              E_notification (online_notice userId username (now st)))) online
    /\ pending userId (fst (authenticate ok socket userId username st)) = []
    /\ In socket (members (user_room userId)
                    (fst (authenticate ok socket userId username st))).
Proof.
  intros Hok. unfold authenticate, reading. rewrite Hok.
  set (info := UserInfo.mk userId username socket (now st)).
  set (sA := with_userSockets (JsMap.set socket info) st).
  set (sB := with_connectedUsers (JsMap.set userId socket) sA).
  set (sC := fst (socket_join socket (user_room userId) sB)).
  set (sD := with_users (alter (User.setOnline true (now st)) userId) sC).
  destruct (sendPendingNotifications_spec userId sD) as (Hout & Hpend & Hsame).
  set (sE := fst (sendPendingNotifications userId sD)) in *.
  assert (Hflushed : flushed userId socket (now st) sE).
  { destruct Hsame as (Hcu & _ & _ & _ & _ & Hj & Hn & _). repeat split.
    - unfold JsMap.has. rewrite Hcu. simpl. now rewrite JsMapFacts.get_set_eq.
    - exact Hpend.
    - unfold members. rewrite Hj.
      exact (socket_join_member socket (user_room userId) sB).
    - rewrite Hn. reflexivity. }
  destruct (flushed_notifyFollowersUserOnline ok userId username socket (now st)
              sE Hflushed) as ((_ & Hp' & Hm' & _) & HQ).
  exists (snd (notifyFollowersUserOnline ok userId username sE)).
  repeat split.
  - rewrite !seq_out. cbn [modify snd socket_join app].
    change (snd (sendPendingNotifications userId sD)
            ++ authenticated_ack socket
               :: snd (notifyFollowersUserOnline ok userId username sE)
            = map (fun n => (ToRoom (user_room userId), E_notification n))
                (pending userId st)
              ++ authenticated_ack socket
                 :: snd (notifyFollowersUserOnline ok userId username sE)).
    rewrite Hout. reflexivity.
  - exact HQ.
  - exact Hp'.
  - exact Hm'.
Qed.

(** C2 (amended).  A user without a [connectedUsers] entry and with an
    empty queue is sent a batch of notifications; then the user
    authenticates and the status write of that handler succeeds.  The
    handler sends exactly the notifications of the batch addressed to the
    user, in the order they were queued, each once, to the user's own
    room, which the authenticating socket has joined; then the
    acknowledgement; then only [user_online] notices about the user for
    followers.  Afterwards nothing is pending for the user. *)
Theorem queued_notifications_flushed_on_authenticate :
  forall (st : State) (ok : Outcome) (socket userId username : string)
         (sends : list (string * Notification.t)),
    JsMap.get userId (connectedUsers st) = None ->
    pending userId st = [] ->
    ok (User_findByIdAndUpdate userId) = true ->
    let st1 := fst (run (notifies sends) st) in
    let r := authenticate ok socket userId username st1 in
    (exists online,
        snd r = map (fun n => (ToRoom (user_room userId), E_notification n))
                    (to_user userId sends)
                ++ authenticated_ack socket :: online
        /\ List.Forall (fun e => exists follower,
             e = (ToRoom (user_room follower),
                  E_notification (online_notice userId username (now st)))) online)
    /\ pending userId (fst r) = []
    /\ In socket (members (user_room userId) (fst r)).
Proof.
  intros st ok socket userId username sends Hoff Hempty Hok st1 r.
  destruct (run_notifies_offline userId sends st Hoff) as [Hp Hsame].
  fold st1 in Hp, Hsame. rewrite Hempty in Hp. simpl in Hp.
  destruct (authenticate_ok ok socket userId username st1 Hok)
    as (online & Hout & HQ & Hpend & Hmem).
  assert (Hnow : now st1 = now st) by apply Hsame.
  rewrite Hp, Hnow in *. split; [|split]; auto.
  exists online. split; assumption.
Qed.

Lemma queued_notifications_flushed_on_authenticate_witness :
  (JsMap.get "u1" (connectedUsers init) = None
   /\ pending "u1" init = []
   /\ allOk (User_findByIdAndUpdate "u1") = true)
  /\ ((exists online,
         snd (authenticate allOk "s1" "u1" "ann" (fst (run (notifies sample_sends) init)))
         = map (fun n => (ToRoom (user_room "u1"), E_notification n))
               (to_user "u1" sample_sends)
           ++ authenticated_ack "s1" :: online
         /\ List.Forall (fun e => exists follower,
              e = (ToRoom (user_room follower),
                   E_notification (online_notice "u1" "ann" (now init)))) online)
      /\ pending "u1"
           (fst (authenticate allOk "s1" "u1" "ann"
                   (fst (run (notifies sample_sends) init)))) = []
      /\ In "s1" (members (user_room "u1")
           (fst (authenticate allOk "s1" "u1" "ann"
                   (fst (run (notifies sample_sends) init)))))).
Proof.
  split.
  - repeat split; reflexivity.
  - apply (queued_notifications_flushed_on_authenticate
             init allOk "s1" "u1" "ann" sample_sends); reflexivity.
Defined.

Example flush_sample :
  snd (run (notifies sample_sends ++ [(allOk, Authenticate "s1" "u1" "ann")]) init)
  = [ (ToRoom (user_room "u1"), E_notification (notice "first"));
      (ToRoom (user_room "u1"), E_notification (notice "second"));
      authenticated_ack "s1" ].
Proof. reflexivity. Qed.

(** C2 as stated fails when the status write of the authenticate handler
    is rejected: the handler answers [authentication_error], delivers
    nothing, and the queue keeps its content. *)
Lemma rejected_status_write_keeps_queue :
  snd (authenticate statusWriteFails "s1" "u1" "ann"
         (fst (run (notifies sample_sends) init)))
  = [(ToSocket "s1", E_authentication_error "Authentication failed")]
  /\ pending "u1"
       (fst (authenticate statusWriteFails "s1" "u1" "ann"
               (fst (run (notifies sample_sends) init))))
     = [notice "first"; notice "second"].
Proof. split; reflexivity. Qed.

(** C3 (amended).  The queue of a user without a [connectedUsers] entry
    has no capacity: a batch of notifications leaves in it everything it
    held before followed by every notification of the batch addressed to
    the user, in order; nothing is dropped. *)
Theorem offline_queue_keeps_everything :
  forall (st : State) (userId : string) (sends : list (string * Notification.t)),
    JsMap.get userId (connectedUsers st) = None ->
    pending userId (fst (run (notifies sends) st))
    = pending userId st ++ to_user userId sends.
Proof.
  intros st userId sends Hoff. apply run_notifies_offline, Hoff.
Qed.

Lemma offline_queue_keeps_everything_witness :
  JsMap.get "u1" (connectedUsers init) = None
  /\ pending "u1" (fst (run (notifies sample_sends) init))
     = pending "u1" init ++ to_user "u1" sample_sends.
Proof.
  split.
  - reflexivity.
  - apply (offline_queue_keeps_everything init "u1" sample_sends). reflexivity.
Defined.

Lemma to_user_repeat userId n k :
  to_user userId (repeat (userId, n) k) = repeat n k.
Proof.
  unfold to_user. induction k as [|k IH]; simpl; auto.
  rewrite String.eqb_refl. simpl. now rewrite IH.
Qed.

(** C3 as stated fails: no capacity bounds the queue.  Whatever the
    capacity, one more notification than that, sent to an offline user,
    are all kept. *)
Lemma no_capacity_bounds_the_queue :
  ~ exists capacity : nat,
      forall sends : list (string * Notification.t),
        length (pending "u1" (fst (run (notifies sends) init))) <= capacity.
Proof.
  intros [capacity H].
  specialize (H (repeat ("u1", notice "again") (S capacity))).
  destruct (run_notifies_offline "u1" (repeat ("u1", notice "again") (S capacity))
              init eq_refl) as [Hp _].
  rewrite Hp, to_user_repeat in H. simpl in H.
  rewrite repeat_length in H. lia.
Qed.

(* ===================================================================== *)
(** ** Rejected count writes *)
(* ===================================================================== *)

Section Degrades.
Variable ok : Outcome.

Lemma degrades_skip : degrades ok skip skip.
Proof. intros st st' H. split; [exact H | reflexivity]. Qed.

Lemma degrades_seq h1 h1' h2 h2' :
  degrades ok h1 h1' -> degrades ok h2 h2' ->
  degrades ok (h1 >>> h2) (h1' >>> h2').
Proof.
  intros H1 H2 st st' H. rewrite !seq_state, !seq_out.
  destruct (H1 st st' H) as [S1 O1]. destruct (H2 _ _ S1) as [S2 O2].
  split; [exact S2|]. now rewrite List.filter_app, O1, O2.
Qed.

Lemma degrades_reading {A} (f : State -> A) k k' :
  (forall st st', same_but_streams st st' -> f st = f st') ->
  (forall a, degrades ok (k a) (k' a)) ->
  degrades ok (reading f k) (reading f k').
Proof.
  intros Hf Hk st st' H. unfold reading. rewrite (Hf st st' H). now apply Hk.
Qed.

Lemma degrades_for_each {A} (xs : list A) body body' :
  (forall x, degrades ok (body x) (body' x)) ->
  degrades ok (for_each xs body) (for_each xs body').
Proof.
  intros Hb. induction xs as [|x r IH]; simpl.
  - apply degrades_skip.
  - apply degrades_seq; auto.
Qed.

Lemma degrades_emit t p :
  write_succeeded ok (t, p) = true -> degrades ok (emit t p) (emit t p).
Proof.
  intros Hp st st' H. split; [exact H|].
  unfold emit. cbn [snd List.filter]. now rewrite Hp.
Qed.

Lemma degrades_modify f :
  (forall st st', same_but_streams st st' -> same_but_streams (f st) (f st')) ->
  degrades ok (modify f) (modify f).
Proof. intros Hf st st' H. split; [now apply Hf | reflexivity]. Qed.

Lemma degrades_updateStreamViewerCount streamId viewerCount :
  degrades ok (updateStreamViewerCount ok streamId viewerCount)
              (updateStreamViewerCount allOk streamId viewerCount).
Proof.
  intros st st' H. unfold updateStreamViewerCount. simpl.
  destruct (ok (Stream_findByIdAndUpdate streamId)) eqn:E.
  all: split; [unfold same_but_streams in *; simpl; exact H | reflexivity].
Qed.
End Degrades.

Ltac same_fields :=
  let a := fresh in
  let b := fresh in
  let H := fresh in
  intros a b H; destruct a, b; unfold same_but_streams in *; simpl in *;
  destruct H as (?&?&?&?&?&?&?&?); subst; repeat split.

Lemma degrades_room_update ok socket streamId socketSet p :
  write_succeeded ok (ToRoomExcept (stream_room streamId) socket, p) = true ->
  degrades ok
    (modify (with_streamRooms (JsMap.set streamId socketSet)) >>>
     updateStreamViewerCount ok streamId (JsSet.size socketSet) >>>
     emit (ToRoomExcept (stream_room streamId) socket) p)
    (modify (with_streamRooms (JsMap.set streamId socketSet)) >>>
     updateStreamViewerCount allOk streamId (JsSet.size socketSet) >>>
     emit (ToRoomExcept (stream_room streamId) socket) p).
Proof.
  intros Hp. apply degrades_seq; [apply degrades_modify; same_fields|].
  apply degrades_seq; [apply degrades_updateStreamViewerCount|].
  now apply degrades_emit.
Qed.

Lemma degrades_join_stream ok socket streamId :
  degrades ok (join_stream ok socket streamId) (join_stream allOk socket streamId).
Proof.
  apply degrades_reading. { intros st st' H. now destruct H as (_ & -> & _). }
  intros [userInfo|]; [|now apply degrades_emit].
  apply degrades_seq; [apply degrades_modify; same_fields|].
  apply degrades_reading. { intros st st' H. now destruct H as (_ & _ & -> & _). }
  intros room.
  apply degrades_seq; [apply degrades_modify; same_fields|].
  apply degrades_seq; [apply degrades_updateStreamViewerCount|].
  apply degrades_seq; now apply degrades_emit.
Qed.

Lemma degrades_leave_stream ok socket streamId :
  degrades ok (leave_stream ok socket streamId) (leave_stream allOk socket streamId).
Proof.
  apply degrades_reading. { intros st st' H. now destruct H as (_ & -> & _). }
  intros [userInfo|]; [|apply degrades_skip].
  apply degrades_seq; [apply degrades_modify; same_fields|].
  apply degrades_reading. { intros st st' H. now destruct H as (_ & _ & -> & _). }
  intros [s|]; [|apply degrades_skip].
  now apply degrades_room_update.
Qed.

Lemma degrades_disconnect ok socket :
  degrades ok (disconnect ok socket) (disconnect allOk socket).
Proof.
  apply degrades_seq; [apply degrades_modify; same_fields|].
  apply degrades_reading. { intros st st' H. now destruct H as (_ & -> & _). }
  intros [userInfo|]; [|apply degrades_skip].
  apply degrades_seq; [apply degrades_modify; same_fields|].
  apply degrades_seq; [apply degrades_modify; same_fields|].
  apply degrades_seq.
  - apply degrades_reading. { intros st st' H. now destruct H as (_ & _ & -> & _). }
    intros streamIds. apply degrades_for_each. intros streamId.
    apply degrades_reading. { intros st st' H. now destruct H as (_ & _ & -> & _). }
    intros [s|]; [|apply degrades_skip].
    destruct (JsSet.has socket s); [|apply degrades_skip].
    now apply degrades_room_update.
  - apply degrades_reading. { intros st st' H. now destruct H as (_&_&_&_&_&_& -> &_). }
    intros t. apply degrades_modify; same_fields.
Qed.

Lemma same_but_streams_refl st : same_but_streams st st.
Proof. repeat split. Qed.

(** C4 (amended).  In the join, leave and disconnect handlers a count
    update is sent only after its write has resolved.  Compared with the
    run in which every write succeeds, a handler whose writes are
    rejected sends the same emissions except the count updates of the
    rejected writes, and leaves the same in-memory state: membership is
    not rolled back, and viewer-joined / viewer-left still carry the new
    count. *)
Theorem rejected_write_drops_only_the_count_update :
  forall (ok : Outcome) (ev : Event) (st : State),
    room_event ev = true ->
    snd (step ok ev st) = List.filter (write_succeeded ok) (snd (step allOk ev st))
    /\ same_but_streams (fst (step ok ev st)) (fst (step allOk ev st)).
Proof.
  intros ok ev st Hev.
  assert (H : degrades ok (step ok ev) (step allOk ev)).
  { apply degrades_seq.
    - destruct ev; try discriminate; simpl; try apply degrades_skip.
      apply degrades_modify; same_fields.
    - destruct ev; try discriminate; simpl.
      + apply degrades_join_stream.
      + apply degrades_leave_stream.
      + apply degrades_disconnect. }
  destruct (H st st (same_but_streams_refl st)) as [Hs Ho]. now split.
Qed.

Lemma rejected_write_drops_only_the_count_update_witness :
  room_event (JoinStream "s1" "live1") = true
  /\ (snd (step countWriteFails (JoinStream "s1" "live1") one_viewer)
      = List.filter (write_succeeded countWriteFails)
          (snd (step allOk (JoinStream "s1" "live1") one_viewer))
      /\ same_but_streams (fst (step countWriteFails (JoinStream "s1" "live1") one_viewer))
                          (fst (step allOk (JoinStream "s1" "live1") one_viewer))).
Proof.
  split.
  - reflexivity.
  - apply (rejected_write_drops_only_the_count_update
             countWriteFails (JoinStream "s1" "live1") one_viewer).
    reflexivity.
Defined.

(** C4 as stated fails: the viewer joins, the set grows to one member,
    the write is rejected, and no viewer-count-update is sent. *)
Lemma rejected_write_blocks_count_update :
  room_size "live1" (fst (step countWriteFails (JoinStream "s1" "live1") one_viewer))
  = Some 1
  /\ snd (step countWriteFails (JoinStream "s1" "live1") one_viewer)
     = [ (ToRoomExcept (stream_room "live1") "s1", E_viewer_joined "ann" 1);
         (ToSocket "s1", E_stream_joined "live1" 1 "Successfully joined stream") ]
  /\ snd (step allOk (JoinStream "s1" "live1") one_viewer)
     = [ (ToRoom (stream_room "live1"), E_viewer_count_update "live1" 1);
         (ToRoomExcept (stream_room "live1") "s1", E_viewer_joined "ann" 1);
         (ToSocket "s1", E_stream_joined "live1" 1 "Successfully joined stream") ].
Proof. repeat split. Qed.

(* ===================================================================== *)
(** ** Presence: the delayed offline transition *)
(* ===================================================================== *)

Ltac maintain :=
  repeat match goal with
    | |- maintains _ _ skip => apply maintains_skip
    | |- maintains _ _ (seq _ _) => apply maintains_seq
    | |- maintains _ _ (for_each _ _) => apply maintains_for_each; intros ?
    | |- maintains _ _ (reading _ _) => apply maintains_reading; intros ?
    | |- maintains _ _ (let _ := _ in _) => cbv zeta
    | |- maintains _ _ (match ?x with _ => _ end) => destruct x
    end.


Lemma has_set_other {V} k k' (v : V) m :
  JsMap.has k m = true -> JsMap.has k (JsMap.set k' v m) = true.
Proof.
  unfold JsMap.has. destruct (String.eqb_spec k' k) as [->|Hne].
  - now rewrite JsMapFacts.get_set_eq.
  - now rewrite JsMapFacts.get_set_ne.
Qed.

Lemma has_delete_other {V} k k' (m : list (string * V)) :
  k' <> k -> JsMap.has k (JsMap.delete k' m) = JsMap.has k m.
Proof. intros H. unfold JsMap.has. now rewrite JsMapFacts.get_delete_ne. Qed.
















(** The disconnect of an authenticated socket arms one timer, due
    [offlineDelay] = 30000 ms later, for the user the socket was
    registered for. *)
Lemma disconnect_arms_timer ok socket info st :
  JsMap.get socket (userSockets st) = Some info ->
  timers (fst (disconnect ok socket st))
  = timers st ++ [mkTimer (now st + 30000) (UserInfo.userId info) (UserInfo.username info)].
Proof.
  intros Hinfo. unfold disconnect. rewrite seq_state. unfold reading.
  change (userSockets (fst (socket_leave_all socket st))) with (userSockets st).
  rewrite Hinfo. rewrite !seq_state.
  set (s2 := fst (modify (with_userSockets _) _)).
  assert (Hk : maintains (fun s => timers s = timers st /\ now s = now st)
                 (fun _ => True)
                 (for_each (JsMap.keys (streamRooms s2))
                    (leaveRoomOnDisconnect ok socket (UserInfo.username info)))).
  { apply maintains_for_each. intros streamId.
    unfold leaveRoomOnDisconnect, updateStreamViewerCount. maintain.
    all: try (now apply maintains_emit).
    all: now apply maintains_modify. }
  destruct (Hk s2) as [[Ht Hn] _]; [now split|].
  unfold modify. cbn [fst with_timers timers]. now rewrite Ht, Hn.
Qed.

(** A timer that is not yet due stays armed and does nothing. *)
Lemma timer_waits ok ms t st :
  In t (timers st) -> (now st + ms < due t)%N ->
  In t (timers (fst (elapse ok ms st))).
Proof.
  intros Hin Hlt. unfold elapse, reading. rewrite !seq_state.
  set (s1 := fst (modify (with_timers _) st)).
  assert (Hin1 : In t (timers s1)).
  { unfold s1. simpl. apply filter_In. split; [exact Hin|].
    unfold expired. apply negb_true_iff. now apply N.leb_gt. }
  assert (Hk : maintains (fun s => timers s = timers s1) (fun _ => True)
                 (for_each (List.filter (expired (now st + ms)) (timers st)) (fire ok))).
  { apply maintains_for_each. intros x.
    unfold fire, offlineTimeout, notifyFollowersUserOffline, sendNotificationToUser.
    maintain.
    all: try (now apply maintains_emit).
    all: now apply maintains_modify. }
  destruct (Hk s1 eq_refl) as [Ht _].
  unfold modify. cbn [fst with_now timers]. now rewrite Ht.
Qed.

(** What [elapse] leaves of the clock and the timers. *)
Lemma elapse_clock_and_timers ok ms st :
  timers (fst (elapse ok ms st))
  = List.filter (fun t => negb (expired (now st + ms) t)) (timers st)
  /\ now (fst (elapse ok ms st)) = (now st + ms)%N.
Proof.
  unfold elapse, reading. rewrite !seq_state.
  set (s1 := fst (modify (with_timers _) st)).
  assert (Hk : maintains (fun s => timers s = timers s1) (fun _ => True)
                 (for_each (List.filter (expired (now st + ms)) (timers st)) (fire ok))).
  { apply maintains_for_each. intros x.
    unfold fire, offlineTimeout, notifyFollowersUserOffline, sendNotificationToUser.
    maintain.
    all: try (now apply maintains_emit).
    all: now apply maintains_modify. }
  destruct (Hk s1 eq_refl) as [Ht _].
  unfold modify. cbn [fst with_now timers now]. now rewrite Ht.
Qed.

(** Handlers other than [disconnect] and [elapse] leave the clock and
    the timers alone. *)
Lemma clock_and_timers_kept ok ev T n :
  match ev with Disconnect _ | Elapse _ => False | _ => True end ->
  maintains (fun s => timers s = T /\ now s = n) (fun _ => True) (step ok ev).
Proof.
  intros Hev. destruct ev; try contradiction.
  all: unfold step, server_js, service, authenticate, join_stream, leave_stream,
         chat_message, updateStreamViewerCount, notifyStreamerMention,
         notifyFollowersUserOnline, sendPendingNotifications,
         sendNotificationToUser, socket_join, socket_leave.
  all: maintain.
  all: try (now apply maintains_emit).
  all: apply maintains_modify; intros ? Hs; exact Hs.
Qed.

Lemma disconnect_keeps_clock ok socket st :
  now (fst (disconnect ok socket st)) = now st
  /\ (JsMap.get socket (userSockets st) = None ->
      timers (fst (disconnect ok socket st)) = timers st).
Proof.
  assert (H : maintains (fun s => now s = now st) (fun _ => True)
                (disconnect ok socket)).
  { unfold disconnect, leaveRoomOnDisconnect, updateStreamViewerCount,
      socket_leave_all.
    maintain.
    all: try (now apply maintains_emit).
    all: apply maintains_modify; intros ? Hs; exact Hs. }
  split; [now apply H|].
  intros Hnone. unfold disconnect. rewrite seq_state. unfold reading.
  change (userSockets (fst (socket_leave_all socket st))) with (userSockets st).
  now rewrite Hnone.
Qed.

Lemma sorted_snoc {A} (R : A -> A -> Prop) l y :
  StronglySorted R l -> List.Forall (fun x => R x y) l ->
  StronglySorted R (l ++ [y]).
Proof.
  induction 1 as [|x l Hl IH Hx]; intros Hy; simpl.
  - repeat constructor.
  - inversion Hy; subst. constructor; [now apply IH|].
    apply List.Forall_app. split; [exact Hx | now repeat constructor].
Qed.

Lemma sorted_filter {A} (R : A -> A -> Prop) f l :
  StronglySorted R l -> StronglySorted R (List.filter f l).
Proof.
  induction 1 as [|x l Hl IH Hx]; simpl; [constructor|].
  destruct (f x); [|exact IH]. constructor; [exact IH|].
  apply List.Forall_forall. intros y Hy. apply filter_In in Hy.
  rewrite List.Forall_forall in Hx. now apply Hx.
Qed.

Lemma timers_stay_in_order ok ev st :
  timers_in_order st -> timers_in_order (fst (step ok ev st)).
Proof.
  intros [Hs Hb]. destruct ev.
  5: { (* disconnect *)
    change (fst (step ok (Disconnect socket) st))
      with (fst (disconnect ok socket st)).
    destruct (disconnect_keeps_clock ok socket st) as [Hn Hnone].
    unfold timers_in_order. rewrite Hn.
    destruct (JsMap.get socket (userSockets st)) as [info|] eqn:E.
    - rewrite (disconnect_arms_timer ok socket info st E).
      change 30000%N with offlineDelay. split.
      + apply sorted_snoc; [exact Hs | exact Hb].
      + apply List.Forall_app. split; [exact Hb|].
        repeat constructor. simpl. lia.
    - rewrite (Hnone eq_refl). now split. }
  6: { (* time passes *)
    change (fst (step ok (Elapse ms) st)) with (fst (elapse ok ms st)).
    destruct (elapse_clock_and_timers ok ms st) as [Ht Hn].
    unfold timers_in_order. rewrite Ht, Hn. split.
    - now apply sorted_filter.
    - apply List.Forall_forall. intros t Hin. apply filter_In in Hin.
      rewrite List.Forall_forall in Hb. specialize (Hb t (proj1 Hin)). lia. }
  all: match goal with
       | |- timers_in_order (fst (step ?o ?e ?s)) =>
           destruct (clock_and_timers_kept o e (timers s) (now s) I s)
             as [[Ht Hn] _]; [now split|];
           unfold timers_in_order; rewrite Ht, Hn; now split
       end.
Qed.

(** In every state the program reaches, the timers are in due order. *)
Lemma timers_always_in_order us ss trace :
  timers_in_order (fst (run trace (boot us ss))).
Proof.
  assert (Hgen : forall st, timers_in_order st -> timers_in_order (fst (run trace st))).
  { induction trace as [|[ok ev] r IH]; intros st Hst; [exact Hst|].
    rewrite run_cons. cbn [fst]. apply IH. now apply timers_stay_in_order. }
  apply Hgen. split; constructor.
Qed.


(** The test the timer makes: with an entry present the callback does
    nothing at all. *)
Lemma timeout_checks_entry ok userId username st :
  JsMap.has userId (connectedUsers st) = true ->
  offlineTimeout ok userId username st = (st, []).
Proof. intros H. unfold offlineTimeout, reading. now rewrite H. Qed.



(* ===================================================================== *)
(** ** Who is told that a streamer went offline *)
(* ===================================================================== *)

Lemma distinct_NoDup l : distinct l = true <-> List.NoDup l.
Proof.
  induction l as [|x r IH]; simpl.
  - split; [constructor | reflexivity].
  - rewrite andb_true_iff, negb_true_iff, IH. split.
    + intros [Hx Hr]. constructor; [|exact Hr].
      intros Hin. apply JsSetFacts.has_In in Hin. unfold JsSet.has in Hin. congruence.
    + intros H. inversion H as [|? ? Hx Hr]; subst. split; [|exact Hr].
      destruct (existsb (String.eqb x) r) eqn:E; [|reflexivity].
      exfalso. apply Hx. now apply JsSetFacts.has_In.
Qed.

Lemma received_by_each n userId ks :
  received userId (map (fun k => (ToRoom (user_room k), E_notification n)) ks)
  = repeat n (count_occ string_dec ks userId).
Proof.
  induction ks as [|k r IH]; simpl; [reflexivity|].
  destruct (String.eqb_spec k userId) as [->|Hne].
  - destruct (string_dec userId userId); [|congruence]. simpl. now rewrite IH.
  - destruct (string_dec k userId); [congruence|]. exact IH.
Qed.

(** Sending to users who all have an entry changes nothing and emits one
    notification each, in order. *)
Lemma notify_connected n ks st :
  (forall k, In k ks -> JsMap.has k (connectedUsers st) = true) ->
  for_each ks (fun k => sendNotificationToUser k n) st
  = (st, map (fun k => (ToRoom (user_room k), E_notification n)) ks).
Proof.
  induction ks as [|k r IH]; intros H; [reflexivity|].
  cbn [for_each]. unfold seq.
  assert (Hk : JsMap.has k (connectedUsers st) = true) by (apply H; now left).
  unfold JsMap.has in Hk.
  destruct (JsMap.get k (connectedUsers st)) as [socket|] eqn:E; [|discriminate].
  rewrite (sendNotificationToUser_online k socket n st E). cbn [fst snd].
  rewrite IH; [reflexivity|]. intros k' Hk'. apply H. now right.
Qed.

Lemma notifyFollowersUserOffline_streamer ok userId username user st :
  User_find ok userId st = Some user ->
  User.isStreamer user = true ->
  notifyFollowersUserOffline ok userId username st
  = (st, map (fun k => (ToRoom (user_room k),
                        E_notification (offline_notice userId username (now st))))
             (JsMap.keys (connectedUsers st))).
Proof.
  intros Hu Hs. unfold notifyFollowersUserOffline, reading. rewrite Hu, Hs.
  apply notify_connected. intros k Hk. now apply JsMapFacts.has_keys.
Qed.

(** C6 (amended).  When the timer finds no entry for the user and the
    status write succeeds, the user's document is marked offline.  If the
    user is a streamer, each follower who has a [connectedUsers] entry at
    that moment is sent exactly one [user_offline] notice, and a follower
    without an entry is sent none and has nothing queued.  If the user is
    not a streamer, nothing is sent at all. *)
Theorem offline_notice_goes_to_connected_followers :
  forall (st : State) (ok : Outcome) (userId username : string) (user : User.doc),
    distinct (JsMap.keys (connectedUsers st)) = true ->
    JsMap.has userId (connectedUsers st) = false ->
    ok (User_findByIdAndUpdate userId) = true ->
    User_find ok userId st = Some user ->
    let r := offlineTimeout ok userId username st in
    (User.isStreamer user = true ->
     forall follower, In follower (User.followers user) ->
       received follower (snd r)
       = (if JsMap.has follower (connectedUsers st)
          then [offline_notice userId username (now st)] else [])
       /\ pending follower (fst r) = pending follower st)
    /\ (User.isStreamer user = false -> snd r = [])
    /\ User.isOnline <$> users (fst r) !! userId = Some false.
Proof.
  intros st ok userId username user Hd Hoff Hok Hfind r.
  apply distinct_NoDup in Hd.
  set (s1 := with_users (alter (User.setOnline false (now st)) userId) st).
  assert (Hfind1 : User_find ok userId s1
                   = Some (User.setOnline false (now st) user)).
  { unfold User_find in *. destruct (ok (User_findById userId)); [|discriminate].
    unfold s1. simpl. now rewrite lookup_alter_eq, Hfind. }
  assert (Hr : r = (if User.isStreamer user
                    then (s1, map (fun k => (ToRoom (user_room k),
                                    E_notification (offline_notice userId username (now st))))
                                  (JsMap.keys (connectedUsers st)))
                    else (s1, []))).
  { unfold r, offlineTimeout, reading. rewrite Hoff, Hok.
    unfold seq, modify. cbn [fst snd app]. fold s1.
    destruct (User.isStreamer user) eqn:Hs.
    - rewrite (notifyFollowersUserOffline_streamer ok userId username _ s1 Hfind1 Hs).
      reflexivity.
    - unfold notifyFollowersUserOffline, reading. rewrite Hfind1. simpl.
      now rewrite Hs. }
  assert (Hdoc : User.isOnline <$> users s1 !! userId = Some false).
  { unfold User_find in Hfind. destruct (ok (User_findById userId)); [|discriminate].
    unfold s1. simpl. now rewrite lookup_alter_eq, Hfind. }
  rewrite Hr. split; [|split].
  - intros Hs follower _. rewrite Hs. cbn [fst snd]. split; [|reflexivity].
    rewrite received_by_each, JsMapFacts.count_occ_keys by assumption.
    now destruct (JsMap.has follower (connectedUsers st)).
  - intros ->. reflexivity.
  - now destruct (User.isStreamer user).
Qed.

Lemma offline_notice_goes_to_connected_followers_witness :
  (distinct (JsMap.keys (connectedUsers follower_watching)) = true
   /\ JsMap.has "u1" (connectedUsers follower_watching) = false
   /\ allOk (User_findByIdAndUpdate "u1") = true
   /\ User_find allOk "u1" follower_watching
      = Some (User.mk "ann" "" true ["u2"] true 0 false))
  /\ ((User.isStreamer (User.mk "ann" "" true ["u2"] true 0 false) = true ->
       forall follower,
         In follower (User.followers (User.mk "ann" "" true ["u2"] true 0 false)) ->
         received follower (snd (offlineTimeout allOk "u1" "ann" follower_watching))
         = (if JsMap.has follower (connectedUsers follower_watching)
            then [offline_notice "u1" "ann" (now follower_watching)] else [])
         /\ pending follower (fst (offlineTimeout allOk "u1" "ann" follower_watching))
            = pending follower follower_watching)
      /\ (User.isStreamer (User.mk "ann" "" true ["u2"] true 0 false) = false ->
          snd (offlineTimeout allOk "u1" "ann" follower_watching) = [])
      /\ User.isOnline
           <$> users (fst (offlineTimeout allOk "u1" "ann" follower_watching)) !! "u1"
         = Some false).
Proof.
  split.
  - repeat split; reflexivity.
  - apply (offline_notice_goes_to_connected_followers
             follower_watching allOk "u1" "ann"
             (User.mk "ann" "" true ["u2"] true 0 false)); reflexivity.
Defined.

(** C6 as stated fails: when the timer fires, the notice goes to [u3],
    who is not a follower, and the follower [u2] gets none, now or
    later. *)
Lemma offline_notice_reaches_a_stranger_not_the_follower :
  User.followers streamer_doc = ["u2"]
  /\ received "u3"
       (snd (step allOk (Elapse 30000) (fst (run streamer_leaves presence_world))))
     = [offline_notice "u1" "ann" 30000]
  /\ received "u2"
       (snd (step allOk (Elapse 30000) (fst (run streamer_leaves presence_world))))
     = []
  /\ List.filter (is_offline_notice_about "u1")
       (pending "u2"
          (fst (step allOk (Elapse 30000) (fst (run streamer_leaves presence_world)))))
     = [].
Proof. repeat split. Qed.

(** Keys of [connectedUsers] are pairwise distinct in every state the
    service can reach. *)
Lemma connectedUsers_keys_distinct us ss trace :
  distinct (JsMap.keys (connectedUsers (fst (run trace (boot us ss))))) = true.
Proof.
  apply distinct_NoDup.
  assert (H : maintains (fun st => List.NoDup (JsMap.keys (connectedUsers st)))
                (fun _ => True) (run trace)).
  { apply maintains_for_each. intros [ok ev]. destruct ev; simpl.
    all: unfold step, server_js, service, authenticate, join_stream, leave_stream, chat_message, disconnect,
           elapse, fire, offlineTimeout, leaveRoomOnDisconnect,
           updateStreamViewerCount, notifyStreamerMention,
           notifyFollowersUserOffline, notifyFollowersUserOnline,
           sendPendingNotifications, sendNotificationToUser,
           socket_join, socket_leave, socket_leave_all.
    all: maintain.
    all: try (now apply maintains_emit).
    all: apply maintains_modify; intros st H; simpl;
      first [ exact H
            | now apply JsMapFacts.NoDup_keys_set
            | now apply JsMapFacts.NoDup_keys_delete ]. }
  apply (H (boot us ss)). constructor.
Qed.

(* ===================================================================== *)
(** ** Authenticating twice *)
(* ===================================================================== *)

(** What [authenticate] records, whatever the database does. *)
Lemma authenticate_registers ok socket userId username st :
  userSockets (fst (authenticate ok socket userId username st))
  = JsMap.set socket (UserInfo.mk userId username socket (now st)) (userSockets st)
  /\ connectedUsers (fst (authenticate ok socket userId username st))
     = JsMap.set userId socket (connectedUsers st).
Proof.
  unfold authenticate, reading. rewrite !seq_state.
  set (sB := fst (modify (with_connectedUsers (JsMap.set userId socket)) _)).
  set (A := JsMap.set socket (UserInfo.mk userId username socket (now st)) (userSockets st)).
  set (B := JsMap.set userId socket (connectedUsers st)).
  assert (HB : userSockets sB = A /\ connectedUsers sB = B) by (split; reflexivity).
  clearbody sB.
  assert (Hrest : maintains (fun s => userSockets s = A /\ connectedUsers s = B)
            (fun _ => True)
            (socket_join socket (user_room userId) >>>
             (if ok (User_findByIdAndUpdate userId)
              then
                modify (with_users (alter (User.setOnline true (now st)) userId)) >>>
                sendPendingNotifications userId >>>
                emit (ToSocket socket) (E_authenticated "Successfully authenticated") >>>
                notifyFollowersUserOnline ok userId username
              else emit (ToSocket socket)
                     (E_authentication_error "Authentication failed")))).
  { unfold sendPendingNotifications, notifyFollowersUserOnline,
      sendNotificationToUser, socket_join.
    maintain.
    all: try (now apply maintains_emit).
    all: apply maintains_modify; intros s' H; exact H. }
  exact (proj1 (Hrest sB HB)).
Qed.

Lemma authenticate_reports_no_failure ok socket userId username st :
  ok (User_findByIdAndUpdate userId) = true ->
  List.Forall (fun e => is_failure e = false)
    (snd (authenticate ok socket userId username st)).
Proof.
  intros Hok.
  assert (H : maintains (fun _ => True) (fun e => is_failure e = false)
                (authenticate ok socket userId username)).
  { unfold authenticate. rewrite Hok.
    unfold sendPendingNotifications, notifyFollowersUserOnline,
      sendNotificationToUser, socket_join.
    maintain.
    all: try (now apply maintains_emit).
    all: now apply maintains_modify. }
  now apply H.
Qed.

(** C7 (amended).  A second [authenticate] on a socket that already
    carries a user is handled like the first.  The socket's entry in
    [userSockets] is replaced by the new identity, the socket is
    registered under the new user in [connectedUsers], and the entry of
    the previous user, when different, is left as it was.  When the
    status write succeeds the socket is answered [authenticated] and no
    error of any kind is reported. *)
Theorem second_authenticate_replaces_identity :
  forall (st : State) (ok : Outcome) (socket userId username : string)
         (previous : UserInfo.t),
    JsMap.get socket (userSockets st) = Some previous ->
    let r := authenticate ok socket userId username st in
    JsMap.get socket (userSockets (fst r))
    = Some (UserInfo.mk userId username socket (now st))
    /\ JsMap.get userId (connectedUsers (fst r)) = Some socket
    /\ (UserInfo.userId previous <> userId ->
        JsMap.get (UserInfo.userId previous) (connectedUsers (fst r))
        = JsMap.get (UserInfo.userId previous) (connectedUsers st))
    /\ (ok (User_findByIdAndUpdate userId) = true ->
        In (authenticated_ack socket) (snd r)
        /\ List.Forall (fun e => is_failure e = false) (snd r)).
Proof.
  intros st ok socket userId username previous _ r.
  destruct (authenticate_registers ok socket userId username st) as [Hus Hcu].
  fold r in Hus, Hcu. rewrite Hus, Hcu.
  rewrite !JsMapFacts.get_set_eq. split; [reflexivity|]. split; [reflexivity|]. split.
  - intros Hne. apply JsMapFacts.get_set_ne. congruence.
  - intros Hok. split.
    + destruct (authenticate_ok ok socket userId username st Hok)
        as (online & Hout & _). fold r in Hout. rewrite Hout.
      apply in_or_app. right. now left.
    + now apply authenticate_reports_no_failure.
Qed.

Lemma second_authenticate_replaces_identity_witness :
  JsMap.get "s1" (userSockets one_viewer) = Some (UserInfo.mk "u1" "ann" "s1" 0)
  /\ (JsMap.get "s1" (userSockets (fst (authenticate allOk "s1" "u2" "bob" one_viewer)))
      = Some (UserInfo.mk "u2" "bob" "s1" (now one_viewer))
      /\ JsMap.get "u2" (connectedUsers (fst (authenticate allOk "s1" "u2" "bob" one_viewer)))
         = Some "s1"
      /\ (UserInfo.userId (UserInfo.mk "u1" "ann" "s1" 0) <> "u2" ->
          JsMap.get (UserInfo.userId (UserInfo.mk "u1" "ann" "s1" 0))
            (connectedUsers (fst (authenticate allOk "s1" "u2" "bob" one_viewer)))
          = JsMap.get (UserInfo.userId (UserInfo.mk "u1" "ann" "s1" 0))
              (connectedUsers one_viewer))
      /\ (allOk (User_findByIdAndUpdate "u2") = true ->
          In (authenticated_ack "s1")
             (snd (authenticate allOk "s1" "u2" "bob" one_viewer))
          /\ List.Forall (fun e => is_failure e = false)
               (snd (authenticate allOk "s1" "u2" "bob" one_viewer)))).
Proof.
  split.
  - reflexivity.
  - apply (second_authenticate_replaces_identity
             one_viewer allOk "s1" "u2" "bob" (UserInfo.mk "u1" "ann" "s1" 0)).
    reflexivity.
Defined.

(** C7 as stated fails: socket [s1], authenticated as [u1], authenticates
    again as [u2]; the answer is [authenticated], and the socket now
    belongs to [u2]. *)
Lemma second_authenticate_is_accepted :
  snd (step allOk (Authenticate "s1" "u2" "bob") one_viewer)
  = [authenticated_ack "s1"]
  /\ UserInfo.userId
       <$> JsMap.get "s1" (userSockets one_viewer) = Some "u1"
  /\ UserInfo.userId
       <$> JsMap.get "s1"
             (userSockets (fst (step allOk (Authenticate "s1" "u2" "bob") one_viewer)))
     = Some "u2"
  /\ connectedUsers (fst (step allOk (Authenticate "s1" "u2" "bob") one_viewer))
     = [("u1", "s1"); ("u2", "s1")].
Proof. repeat split. Qed.

(* ===================================================================== *)
(** ** Chat *)
(* ===================================================================== *)






(** X1.  The limit as the handler of the service applies it.  For an
    authenticated sender whose user document is not chat-banned: a text
    of 501 code units is turned down with a validation error sent to the
    sender alone, and nothing changes; a text of exactly 500 code units
    that is not blank is accepted: the first thing the handler sends is
    the [new-message] broadcast to the stream's room, carrying the
    trimmed text, and it reports no error. *)
Theorem chat_length_limit :
  forall (st : State) (ok : Outcome) (socket streamId : string)
         (info : UserInfo.t) (user : User.doc) (long exact : string),
    JsMap.get socket (userSockets st) = Some info ->
    User_find ok (UserInfo.userId info) st = Some user ->
    User.isChatBanned user = false ->
    String.length long = 501 ->
    String.length exact = 500 ->
    String.length (trim exact) <> 0 ->
    (fst (chat_message ok socket streamId (Some long) st) = st
     /\ exists reason,
          snd (chat_message ok socket streamId (Some long) st)
          = [(ToSocket socket, E_error reason)]
          /\ In reason validation_errors)
    /\ (exists rest,
          snd (chat_message ok socket streamId (Some exact) st)
          = (ToRoom (stream_room streamId),
             E_new_message
               (ChatMessage.mk (now st) streamId (UserInfo.userId info)
                  (UserInfo.username info) (trim exact) (now st)
                  (User.avatar user))) :: rest
          /\ List.Forall (fun e => is_failure e = false)
               (snd (chat_message ok socket streamId (Some exact) st))).
Proof.
  intros st ok socket streamId info user long exact Hinfo Hfind Hban Hlong Hlen Hb.
  unfold chat_message, reading. rewrite Hinfo. split.
  - rewrite Hlong. cbn [Nat.eqb orb].
    destruct (String.length (trim long) =? 0)%nat.
    + split; [reflexivity|]. exists "Message cannot be empty".
      split; [reflexivity | now left].
    + change (500 <? 501)%nat with true. cbn iota.
      split; [reflexivity|]. exists "Message too long".
      split; [reflexivity | right; now left].
  - rewrite Hlen. apply Nat.eqb_neq in Hb. rewrite Hb.
    change (500 =? 0)%nat with false. change (500 <? 500)%nat with false.
    cbn [orb]. cbn iota. rewrite Hfind, Hban.
    eexists. split; [reflexivity|].
    rewrite seq_out. apply List.Forall_app. split; [now repeat constructor|].
    match goal with
    | |- List.Forall _ (snd (?h ?s)) =>
        assert (H : maintains (fun _ => True) (fun e => is_failure e = false) h)
    end.
    { unfold notifyStreamerMention, sendNotificationToUser. maintain.
      - now apply maintains_emit.
      - now apply maintains_modify. }
    now apply H.
Qed.

Lemma chat_length_limit_witness :
  (JsMap.get "s2" (userSockets chatters) = Some (UserInfo.mk "u2" "bob" "s2" 0)
   /\ User_find allOk (UserInfo.userId (UserInfo.mk "u2" "bob" "s2" 0)) chatters
      = Some (User.mk "bob" "" false [] true 0 false)
   /\ User.isChatBanned (User.mk "bob" "" false [] true 0 false) = false
   /\ String.length (replicate_char 501 letter_a) = 501
   /\ String.length (replicate_char 500 letter_a) = 500
   /\ String.length (trim (replicate_char 500 letter_a)) <> 0)
  /\ ((fst (chat_message allOk "s2" "live1" (Some (replicate_char 501 letter_a)) chatters)
       = chatters
       /\ exists reason,
            snd (chat_message allOk "s2" "live1" (Some (replicate_char 501 letter_a))
                   chatters)
            = [(ToSocket "s2", E_error reason)]
            /\ In reason validation_errors)
      /\ (exists rest,
            snd (chat_message allOk "s2" "live1" (Some (replicate_char 500 letter_a))
                   chatters)
            = (ToRoom (stream_room "live1"),
               E_new_message
                 (ChatMessage.mk (now chatters) "live1"
                    (UserInfo.userId (UserInfo.mk "u2" "bob" "s2" 0))
                    (UserInfo.username (UserInfo.mk "u2" "bob" "s2" 0))
                    (trim (replicate_char 500 letter_a)) (now chatters)
                    (User.avatar (User.mk "bob" "" false [] true 0 false)))) :: rest
            /\ List.Forall (fun e => is_failure e = false)
                 (snd (chat_message allOk "s2" "live1"
                         (Some (replicate_char 500 letter_a)) chatters)))).
Proof.
  split.
  - repeat split; try reflexivity. vm_compute. discriminate.
  - apply (chat_length_limit chatters allOk "s2" "live1"
             (UserInfo.mk "u2" "bob" "s2" 0)
             (User.mk "bob" "" false [] true 0 false)
             (replicate_char 501 letter_a) (replicate_char 500 letter_a));
      try reflexivity.
    vm_compute. discriminate.
Defined.

Example chat_500_is_broadcast :
  snd (chat_message allOk "s2" "live1" (Some (replicate_char 500 letter_a)) chatters)
  = [(ToRoom (stream_room "live1"),
      E_new_message (ChatMessage.mk 0 "live1" "u2" "bob"
                       (replicate_char 500 letter_a) 0 ""))].
Proof. vm_compute. reflexivity. Qed.

Example chat_501_is_rejected :
  snd (chat_message allOk "s2" "live1" (Some (replicate_char 501 letter_a)) chatters)
  = [(ToSocket "s2", E_error "Message too long")].
Proof. vm_compute. reflexivity. Qed.

(** *** The listener of server.js *)

(** Whatever the service decides, the payload of every chat-message has
    already been passed on by server.js. *)
Lemma chat_message_is_relayed_first ok socket streamId message st :
  snd (step ok (ChatMessageEv socket streamId message) st)
  = (ToRoomExcept (server_stream_room streamId) socket,
     E_new_message_relayed streamId message)
    :: snd (chat_message ok socket streamId message st).
Proof. reflexivity. Qed.

Lemma In_joined_after_join socket r p st :
  In p (joined (fst (socket_join socket r st)))
  <-> In p (joined st) \/ p = (socket, r).
Proof.
  unfold socket_join, modify. simpl.
  destruct (existsb (in_room socket r) (joined st)) eqn:E.
  - split; [now left|]. intros [H | ->]; [exact H|].
    apply existsb_exists in E. destruct E as [[s' r'] [Hin Hp]].
    unfold in_room in Hp. simpl in Hp. apply andb_true_iff in Hp.
    destruct Hp as [Hs Hr]. apply String.eqb_eq in Hs. subst s'.
    assert (r' = r) as ->; [|exact Hin].
    destruct r', r; simpl in Hr; try discriminate;
      apply String.eqb_eq in Hr; now subst.
  - rewrite in_app_iff. simpl. intuition.
Qed.

Lemma shadowed_after_join socket r st :
  (forall streamId, r = stream_room streamId ->
                    In (socket, server_stream_room streamId) (joined st)) ->
  rooms_shadowed st ->
  rooms_shadowed (fst (socket_join socket r st)).
Proof.
  intros Hr H s x Hin. apply In_joined_after_join.
  apply In_joined_after_join in Hin. destruct Hin as [Hin|Heq].
  - left. now apply H.
  - inversion Heq; subst. left. now apply Hr.
Qed.

Lemma shadowed_after_leave socket r st :
  rooms_shadowed st -> rooms_shadowed (fst (socket_leave socket (stream_room r) st)).
Proof.
  intros H s x Hin. unfold socket_leave, modify in *. simpl in *.
  apply filter_In in Hin. destruct Hin as [Hin _].
  apply filter_In. split; [now apply H|].
  unfold in_room. simpl. now rewrite andb_false_r.
Qed.

Lemma shadowed_after_leave_all socket st :
  rooms_shadowed st -> rooms_shadowed (fst (socket_leave_all socket st)).
Proof.
  intros H s x Hin. unfold socket_leave_all, modify in *. simpl in *.
  apply filter_In in Hin. destruct Hin as [Hin Hs].
  apply filter_In. split; [now apply H | exact Hs].
Qed.

Lemma shadowed_kept_by_step ok ev st :
  rooms_shadowed st -> rooms_shadowed (fst (step ok ev st)).
Proof.
  intros H. unfold step. rewrite seq_state.
  assert (Hquiet : forall h,
             maintains rooms_shadowed (fun _ => True) h ->
             rooms_shadowed (fst (h st))) by (intros h Hh; now apply Hh).
  destruct ev; cbn [server_js service]; try change (fst (skip st)) with st.
  - apply Hquiet.
    unfold authenticate, sendPendingNotifications, notifyFollowersUserOnline,
      sendNotificationToUser.
    maintain.
    all: try (now apply maintains_emit).
    all: try (apply maintains_modify; intros ? Hs; exact Hs).
    intros z Hs. split; [|constructor].
    apply shadowed_after_join; [discriminate | exact Hs].
  - set (s1 := fst (socket_join socket (server_stream_room streamId) st)).
    assert (H1 : rooms_shadowed s1
                 /\ In (socket, server_stream_room streamId) (joined s1)).
    { split.
      - apply shadowed_after_join; [discriminate | exact H].
      - apply In_joined_after_join. now right. }
    clearbody s1.
    assert (Hj : maintains
              (fun s => rooms_shadowed s
                        /\ In (socket, server_stream_room streamId) (joined s))
              (fun _ => True) (join_stream ok socket streamId)).
    { unfold join_stream, updateStreamViewerCount. maintain.
      all: try (now apply maintains_emit).
      all: try (apply maintains_modify; intros ? Hs; exact Hs).
      intros z [Hs Hin]. split; [|constructor]. split.
      - apply shadowed_after_join; [|exact Hs].
        intros x Hx. inversion Hx; subst. exact Hin.
      - apply In_joined_after_join. now left. }
    now apply Hj.
  - apply Hquiet. unfold leave_stream, updateStreamViewerCount. maintain.
    all: try (now apply maintains_emit).
    all: try (apply maintains_modify; intros ? Hs; exact Hs).
    intros z Hs. split; [|constructor]. now apply shadowed_after_leave.
  - change (fst (emit (ToRoomExcept (server_stream_room streamId) socket)
                   (E_new_message_relayed streamId message) st)) with st.
    apply Hquiet.
    unfold chat_message, notifyStreamerMention, sendNotificationToUser. maintain.
    all: try (now apply maintains_emit).
    all: apply maintains_modify; intros ? Hs; exact Hs.
  - apply Hquiet.
    unfold disconnect, leaveRoomOnDisconnect, updateStreamViewerCount. maintain.
    all: try (now apply maintains_emit).
    all: try (apply maintains_modify; intros ? Hs; exact Hs).
    intros z Hs. split; [|constructor]. now apply shadowed_after_leave_all.
  - apply Hquiet. unfold sendNotificationToUser. maintain.
    all: try (now apply maintains_emit).
    all: apply maintains_modify; intros ? Hs; exact Hs.
  - apply Hquiet.
    unfold elapse, fire, offlineTimeout, notifyFollowersUserOffline,
      sendNotificationToUser.
    maintain.
    all: try (now apply maintains_emit).
    all: apply maintains_modify; intros ? Hs; exact Hs.
Qed.

(** X2.  Every socket the service counts among the viewers of a stream
    is reached by what server.js sends to its own room of that stream. *)
Lemma viewers_are_in_the_room_of_server_js us ss trace socket streamId :
  In socket (members (stream_room streamId) (fst (run trace (boot us ss)))) ->
  In socket (members (server_stream_room streamId) (fst (run trace (boot us ss)))).
Proof.
  assert (H : rooms_shadowed (fst (run trace (boot us ss)))).
  { assert (Hgen : forall st, rooms_shadowed st -> rooms_shadowed (fst (run trace st))).
    { induction trace as [|[ok ev] r IH]; intros st Hst; [exact Hst|].
      rewrite run_cons. cbn [fst]. apply IH. now apply shadowed_kept_by_step. }
    apply Hgen. intros s x []. }
  unfold members. rewrite !in_map_iff.
  intros [[s r] [Hs Hin]]. simpl in Hs. subst s.
  apply filter_In in Hin. destruct Hin as [Hin Hr]. simpl in Hr.
  destruct r; simpl in Hr; try discriminate.
  apply String.eqb_eq in Hr. subst streamId0.
  exists (socket, server_stream_room streamId). split; [reflexivity|].
  apply filter_In. split; [now apply H | apply Room_eqb_refl].
Qed.

(** C9.  The program run on a text of 501 code units from an
    authenticated sender who is not banned: the service turns the text
    down and tells the sender, but server.js has already sent it, under
    the name [new-message], to the other socket watching the stream. *)
Theorem overlong_message_is_relayed_by_server_js :
  snd (step allOk
         (ChatMessageEv "s2" "live1" (Some (replicate_char 501 letter_a))) chatters)
  = [ (ToRoomExcept (server_stream_room "live1") "s2",
       E_new_message_relayed "live1" (Some (replicate_char 501 letter_a)));
      (ToSocket "s2", E_error "Message too long") ]
  /\ receivers chatters
       (ToRoomExcept (server_stream_room "live1") "s2",
        E_new_message_relayed "live1" (Some (replicate_char 501 letter_a)))
     = ["s1"]
  /\ members (stream_room "live1") chatters = ["s1"; "s2"].
Proof. vm_compute. repeat split. Qed.

(* ===================================================================== *)
(** ** Leaving a room one is not in *)
(* ===================================================================== *)

Lemma set_same {V} k (v : V) m : JsMap.get k m = Some v -> JsMap.set k v m = m.
Proof.
  induction m as [|[k' v'] r IH]; simpl; [discriminate|].
  destruct (String.eqb_spec k k') as [->|Hne].
  - intros H. now inversion H.
  - intros H. now rewrite IH.
Qed.

(** C10 (amended).  An authenticated socket leaves a stream.  If a set
    is tracked for the stream and the socket is not in it, the set and
    the whole of [streamRooms] stay as they are, and the room is still
    sent [viewer-left] with the leaver's name and the unchanged count,
    preceded by [viewer-count-update] with that count when the count
    write succeeds.  If no set is tracked for the stream, nothing is
    sent. *)
Theorem leave_without_membership :
  forall (st : State) (ok : Outcome) (socket streamId unknown : string)
         (info : UserInfo.t) (s : list string),
    JsMap.get socket (userSockets st) = Some info ->
    JsMap.get streamId (streamRooms st) = Some s ->
    JsSet.has socket s = false ->
    JsMap.get unknown (streamRooms st) = None ->
    (snd (leave_stream ok socket streamId st)
     = (if ok (Stream_findByIdAndUpdate streamId)
        then [(ToRoom (stream_room streamId),
               E_viewer_count_update streamId (JsSet.size s))]
        else [])
       ++ [(ToRoomExcept (stream_room streamId) socket,
            E_viewer_left (UserInfo.username info) (JsSet.size s))]
     /\ streamRooms (fst (leave_stream ok socket streamId st)) = streamRooms st)
    /\ (snd (leave_stream ok socket unknown st) = []
        /\ streamRooms (fst (leave_stream ok socket unknown st)) = streamRooms st).
Proof.
  intros st ok socket streamId unknown info s Hinfo Hroom Hnot Hnone.
  unfold leave_stream, reading, socket_leave. rewrite Hinfo. split.
  - rewrite seq_state, seq_out. cbn [modify fst snd with_joined streamRooms app].
    rewrite Hroom. rewrite (JsSetFacts.delete_absent _ _ Hnot).
    unfold updateStreamViewerCount.
    destruct (ok (Stream_findByIdAndUpdate streamId)); hsimpl;
      now rewrite (set_same _ _ _ Hroom).
  - rewrite seq_state, seq_out. cbn [modify fst snd with_joined streamRooms app].
    rewrite Hnone. split; reflexivity.
Qed.

Lemma leave_without_membership_witness :
  (JsMap.get "s2" (userSockets one_watching) = Some (UserInfo.mk "u2" "bob" "s2" 0)
   /\ JsMap.get "live1" (streamRooms one_watching) = Some ["s1"]
   /\ JsSet.has "s2" ["s1"] = false
   /\ JsMap.get "live9" (streamRooms one_watching) = None)
  /\ ((snd (leave_stream allOk "s2" "live1" one_watching)
       = (if allOk (Stream_findByIdAndUpdate "live1")
          then [(ToRoom (stream_room "live1"),
                 E_viewer_count_update "live1" (JsSet.size ["s1"]))]
          else [])
         ++ [(ToRoomExcept (stream_room "live1") "s2",
              E_viewer_left (UserInfo.username (UserInfo.mk "u2" "bob" "s2" 0))
                (JsSet.size ["s1"]))]
       /\ streamRooms (fst (leave_stream allOk "s2" "live1" one_watching))
          = streamRooms one_watching)
      /\ (snd (leave_stream allOk "s2" "live9" one_watching) = []
          /\ streamRooms (fst (leave_stream allOk "s2" "live9" one_watching))
             = streamRooms one_watching)).
Proof.
  split.
  - repeat split; reflexivity.
  - apply (leave_without_membership one_watching allOk "s2" "live1" "live9"
             (UserInfo.mk "u2" "bob" "s2" 0) ["s1"]); reflexivity.
Defined.

(** C10 as stated fails when the count write is rejected: the non-member
    leaves, the room is sent [viewer-left] with the unchanged count 1, and
    no [viewer-count-update]. *)
Lemma leave_without_membership_and_rejected_write :
  snd (step countWriteFails (LeaveStream "s2" "live1") one_watching)
  = [(ToRoomExcept (stream_room "live1") "s2", E_viewer_left "bob" 1)]
  /\ snd (step allOk (LeaveStream "s2" "live1") one_watching)
     = [(ToRoom (stream_room "live1"), E_viewer_count_update "live1" 1);
        (ToRoomExcept (stream_room "live1") "s2", E_viewer_left "bob" 1)].
Proof. split; reflexivity. Qed.

(* ===================================================================== *)
(** ** Two scenarios, run *)
(* ===================================================================== *)

Example short_visit_output :
  snd (run short_visit presence_world)
  = [ authenticated_ack "a";
      (ToRoom (user_room "u2"), E_notification (online_notice "u1" "ann" 0));
      authenticated_ack "b";
      (ToRoom (stream_room "live1"), E_viewer_count_update "live1" 1);
      (ToRoomExcept (stream_room "live1") "b", E_viewer_joined "bob" 1);
      (ToSocket "b", E_stream_joined "live1" 1 "Successfully joined stream");
      (ToRoom (stream_room "live1"), E_viewer_count_update "live1" 0);
      (ToRoomExcept (stream_room "live1") "b", E_viewer_left "bob" 0) ].
Proof. reflexivity. Qed.

Example short_visit_state :
  streamRooms (fst (run short_visit presence_world)) = [("live1", [])]
  /\ connectedUsers (fst (run short_visit presence_world)) = [("u1", "a")]
  /\ timers (fst (run short_visit presence_world)) = [mkTimer 30000 "u2" "bob"]
  /\ pending "u2" (fst (run short_visit presence_world)) = [].
Proof. repeat split. Qed.

(* ===================================================================== *)
(** ** Rooms and the sockets in them *)
(* ===================================================================== *)

Lemma join_stream_state ok socket streamId info st :
  JsMap.get socket (userSockets st) = Some info ->
  let st' := fst (join_stream ok socket streamId st) in
  streamRooms st'
  = JsMap.set streamId
      (JsSet.add socket
         (match JsMap.get streamId (streamRooms st) with Some s => s | None => [] end))
      (streamRooms st)
  /\ userSockets st' = userSockets st
  /\ connectedUsers st' = connectedUsers st
  /\ notificationQueue st' = notificationQueue st.
Proof.
  intros H. unfold join_stream, reading. rewrite H.
  unfold updateStreamViewerCount.
  destruct (ok (Stream_findByIdAndUpdate streamId)); repeat split.
Qed.

Lemma join_stream_refused ok socket streamId st :
  JsMap.get socket (userSockets st) = None ->
  join_stream ok socket streamId st
  = (st, [(ToSocket socket, E_error "Not authenticated")]).
Proof. intros H. unfold join_stream, reading. now rewrite H. Qed.

Lemma leave_stream_state ok socket streamId st :
  let st' := fst (leave_stream ok socket streamId st) in
  (forall sid,
     JsMap.get sid (streamRooms st')
     = if JsMap.has socket (userSockets st) && String.eqb streamId sid
       then option_map (JsSet.delete socket) (JsMap.get sid (streamRooms st))
       else JsMap.get sid (streamRooms st))
  /\ userSockets st' = userSockets st
  /\ connectedUsers st' = connectedUsers st
  /\ notificationQueue st' = notificationQueue st.
Proof.
  unfold leave_stream, reading, JsMap.has.
  destruct (JsMap.get socket (userSockets st)) as [info|]; [|now repeat split].
  cbn [andb]. unfold socket_leave, seq, modify.
  cbn [fst snd with_joined streamRooms].
  destruct (JsMap.get streamId (streamRooms st)) as [s|] eqn:E.
  - unfold updateStreamViewerCount, seq, modify, emit.
    destruct (ok (Stream_findByIdAndUpdate streamId)); (split; [|now repeat split]).
    all: intros sid; cbn; destruct (String.eqb_spec streamId sid) as [->|Hne].
    all: try (rewrite JsMapFacts.get_set_eq, E; reflexivity).
    all: now rewrite JsMapFacts.get_set_ne.
  - split; [|now repeat split]. intros sid. cbn.
    destruct (String.eqb_spec streamId sid) as [->|Hne]; [|reflexivity].
    now rewrite E.
Qed.

Lemma delete_delete x s : JsSet.delete x (JsSet.delete x s) = JsSet.delete x s.
Proof. apply JsSetFacts.delete_absent, JsSetFacts.has_delete. Qed.

Lemma leaveRoomOnDisconnect_state ok socket name k st :
  let st' := fst (leaveRoomOnDisconnect ok socket name k st) in
  (forall sid,
     JsMap.get sid (streamRooms st')
     = if String.eqb k sid
       then option_map (JsSet.delete socket) (JsMap.get sid (streamRooms st))
       else JsMap.get sid (streamRooms st))
  /\ userSockets st' = userSockets st
  /\ connectedUsers st' = connectedUsers st
  /\ notificationQueue st' = notificationQueue st
  /\ timers st' = timers st /\ now st' = now st.
Proof.
  unfold leaveRoomOnDisconnect, reading.
  destruct (JsMap.get k (streamRooms st)) as [s|] eqn:E.
  - destruct (JsSet.has socket s) eqn:Hs.
    + unfold updateStreamViewerCount.
      destruct (ok (Stream_findByIdAndUpdate k)); (split; [|now repeat split]).
      all: intros sid; cbn; destruct (String.eqb_spec k sid) as [->|Hne].
      all: try (rewrite JsMapFacts.get_set_eq, E; reflexivity).
      all: now rewrite JsMapFacts.get_set_ne.
    + split; [|now repeat split]. intros sid. cbn.
      destruct (String.eqb_spec k sid) as [->|Hne]; [|reflexivity].
      rewrite E. cbn. now rewrite JsSetFacts.delete_absent.
  - split; [|now repeat split]. intros sid. cbn.
    destruct (String.eqb_spec k sid) as [->|Hne]; [|reflexivity].
    now rewrite E.
Qed.

Lemma evict_loop_state ok socket name ks : forall st,
  let st' := fst (for_each ks (leaveRoomOnDisconnect ok socket name) st) in
  (forall sid,
     JsMap.get sid (streamRooms st')
     = if existsb (String.eqb sid) ks
       then option_map (JsSet.delete socket) (JsMap.get sid (streamRooms st))
       else JsMap.get sid (streamRooms st))
  /\ userSockets st' = userSockets st
  /\ connectedUsers st' = connectedUsers st
  /\ notificationQueue st' = notificationQueue st
  /\ timers st' = timers st /\ now st' = now st.
Proof.
  induction ks as [|k r IH]; intros st; [now repeat split|].
  cbn [for_each]. rewrite seq_state.
  destruct (leaveRoomOnDisconnect_state ok socket name k st)
    as (Hr1 & Hu1 & Hc1 & Hq1 & Ht1 & Hn1).
  destruct (IH (fst (leaveRoomOnDisconnect ok socket name k st)))
    as (Hr2 & Hu2 & Hc2 & Hq2 & Ht2 & Hn2).
  cbv zeta. split; [|repeat split; congruence].
  intros sid. rewrite Hr2, Hr1. cbn [existsb].
  rewrite (String.eqb_sym sid k).
  destruct (String.eqb k sid), (existsb (String.eqb sid) r); cbn; try reflexivity.
  destruct (JsMap.get sid (streamRooms st)); cbn; [|reflexivity].
  now rewrite delete_delete.
Qed.

Lemma disconnect_state ok socket st :
  let st' := fst (disconnect ok socket st) in
  match JsMap.get socket (userSockets st) with
  | Some info =>
      (forall sid,
         JsMap.get sid (streamRooms st')
         = option_map (JsSet.delete socket) (JsMap.get sid (streamRooms st)))
      /\ userSockets st' = JsMap.delete socket (userSockets st)
      /\ connectedUsers st' = JsMap.delete (UserInfo.userId info) (connectedUsers st)
      /\ timers st'
         = timers st ++ [mkTimer (now st + offlineDelay) (UserInfo.userId info)
                                 (UserInfo.username info)]
  | None =>
      streamRooms st' = streamRooms st /\ userSockets st' = userSockets st
      /\ connectedUsers st' = connectedUsers st /\ timers st' = timers st
  end
  /\ notificationQueue st' = notificationQueue st.
Proof.
  unfold disconnect. rewrite seq_state. unfold reading.
  change (userSockets (fst (socket_leave_all socket st))) with (userSockets st).
  set (s0 := fst (socket_leave_all socket st)).
  destruct (JsMap.get socket (userSockets st)) as [info|]; [|now repeat split].
  rewrite !seq_state.
  set (s2 := fst (modify (with_userSockets (JsMap.delete socket))
                    (fst (modify (with_connectedUsers
                                   (JsMap.delete (UserInfo.userId info))) s0)))).
  destruct (evict_loop_state ok socket (UserInfo.username info)
              (JsMap.keys (streamRooms s2)) s2) as (Hr & Hu & Hc & Hq & Ht & Hn).
  cbv zeta in *. cbn [modify fst with_timers streamRooms userSockets connectedUsers
                      notificationQueue timers].
  split; [|exact Hq]. split; [|split; [exact Hu|split; [exact Hc|]]].
  - intros sid. rewrite Hr.
    change (streamRooms s2) with (streamRooms st).
    destruct (existsb (String.eqb sid) (JsMap.keys (streamRooms st))) eqn:Ex;
      [reflexivity|].
    destruct (JsMap.get sid (streamRooms st)) as [s|] eqn:E; [|reflexivity].
    assert (Hin : In sid (JsMap.keys (streamRooms st))).
    { apply JsMapFacts.has_keys. unfold JsMap.has. now rewrite E. }
    assert (Ht' : existsb (String.eqb sid) (JsMap.keys (streamRooms st)) = true).
    { apply existsb_exists. exists sid. split; [exact Hin|apply String.eqb_refl]. }
    congruence.
  - rewrite Ht, Hn. reflexivity.
Qed.

Ltac untouched :=
  maintain;
  try (now apply maintains_emit);
  try (apply maintains_modify; intros ? Hkept; exact Hkept).

Lemma registry_kept ok ev st :
  match ev with
  | ChatMessageEv _ _ _ | Notify _ _ | Elapse _ =>
      userSockets (fst (service ok ev st)) = userSockets st
      /\ connectedUsers (fst (service ok ev st)) = connectedUsers st
      /\ streamRooms (fst (service ok ev st)) = streamRooms st
  | _ => True
  end.
Proof.
  assert (H : forall h,
    maintains (fun s => userSockets s = userSockets st
                        /\ connectedUsers s = connectedUsers st
                        /\ streamRooms s = streamRooms st) (fun _ => True) h ->
    userSockets (fst (h st)) = userSockets st
    /\ connectedUsers (fst (h st)) = connectedUsers st
    /\ streamRooms (fst (h st)) = streamRooms st).
  { intros h Hh. now apply Hh. }
  destruct ev; try exact I; apply H; cbn [service].
  all: unfold chat_message, elapse, fire, offlineTimeout, notifyStreamerMention,
         notifyFollowersUserOffline, sendNotificationToUser.
  all: untouched.
Qed.

Lemma server_js_keeps_service_maps ev st :
  streamRooms (fst (server_js ev st)) = streamRooms st
  /\ userSockets (fst (server_js ev st)) = userSockets st
  /\ connectedUsers (fst (server_js ev st)) = connectedUsers st
  /\ notificationQueue (fst (server_js ev st)) = notificationQueue st
  /\ streams (fst (server_js ev st)) = streams st.
Proof. destruct ev; repeat split. Qed.

Lemma In_add x y s : In x (JsSet.add y s) <-> x = y \/ In x s.
Proof.
  unfold JsSet.add. destruct (JsSet.has y s) eqn:E.
  - split; [now right|]. intros [-> | H]; [|exact H].
    now apply JsSetFacts.has_In.
  - rewrite in_app_iff. simpl. intuition.
Qed.

Lemma In_delete x y s : In x (JsSet.delete y s) <-> In x s /\ x <> y.
Proof.
  unfold JsSet.delete. rewrite filter_In, negb_true_iff, String.eqb_neq.
  intuition.
Qed.

Lemma rooms_sound_service ok ev st :
  rooms_sound st -> rooms_sound (fst (service ok ev st)).
Proof.
  intros [Hm Hs]. destruct ev; cbn [service].
  - destruct (quiet_authenticate ok socket userId username st) as [Hr _].
    destruct (authenticate_registers ok socket userId username st) as [Hu _].
    split.
    + intros sid room x Hg Hx. rewrite Hu. apply has_set_other.
      rewrite Hr in Hg. now apply (Hm sid room).
    + intros sid room Hg. rewrite Hr in Hg. now apply (Hs sid).
  - destruct (JsMap.get socket (userSockets st)) as [info|] eqn:E.
    + destruct (join_stream_state ok socket streamId info st E) as (Hr & Hu & _).
      cbv zeta in *. split.
      * intros sid room x Hg Hx. rewrite Hu. rewrite Hr in Hg.
        destruct (String.eqb_spec streamId sid) as [->|Hne].
        -- rewrite JsMapFacts.get_set_eq in Hg. injection Hg as <-.
           apply In_add in Hx. destruct Hx as [-> | Hx].
           ++ unfold JsMap.has. now rewrite E.
           ++ destruct (JsMap.get sid (streamRooms st)) as [s0|] eqn:E0;
                [now apply (Hm sid s0) | destruct Hx].
        -- rewrite JsMapFacts.get_set_ne in Hg by assumption.
           now apply (Hm sid room).
      * intros sid room Hg. rewrite Hr in Hg.
        destruct (String.eqb_spec streamId sid) as [->|Hne].
        -- rewrite JsMapFacts.get_set_eq in Hg. injection Hg as <-.
           apply JsSetFacts.NoDup_add.
           destruct (JsMap.get sid (streamRooms st)) as [s0|] eqn:E0;
             [now apply (Hs sid) | constructor].
        -- rewrite JsMapFacts.get_set_ne in Hg by assumption. now apply (Hs sid).
    + rewrite (join_stream_refused ok socket streamId st E). now split.
  - destruct (leave_stream_state ok socket streamId st) as (Hr & Hu & _).
    cbv zeta in *. split.
    + intros sid room x Hg Hx. rewrite Hu. rewrite Hr in Hg.
      destruct (JsMap.has socket (userSockets st) && String.eqb streamId sid);
        [|now apply (Hm sid room)].
      destruct (JsMap.get sid (streamRooms st)) as [s0|] eqn:E0; [|discriminate].
      injection Hg as <-. apply In_delete in Hx. now apply (Hm sid s0).
    + intros sid room Hg. rewrite Hr in Hg.
      destruct (JsMap.has socket (userSockets st) && String.eqb streamId sid);
        [|now apply (Hs sid)].
      destruct (JsMap.get sid (streamRooms st)) as [s0|] eqn:E0; [|discriminate].
      injection Hg as <-. apply JsSetFacts.NoDup_delete. now apply (Hs sid).
  - destruct (registry_kept ok (ChatMessageEv socket streamId message) st)
      as (Hu & _ & Hr).
    cbn [service] in *. split.
    + intros sid room x Hg Hx. rewrite Hu. rewrite Hr in Hg. now apply (Hm sid room).
    + intros sid room Hg. rewrite Hr in Hg. now apply (Hs sid).
  - destruct (disconnect_state ok socket st) as [H _]. cbv zeta in *.
    destruct (JsMap.get socket (userSockets st)) as [info|] eqn:E.
    + destruct H as (Hr & Hu & _). split.
      * intros sid room x Hg Hx. rewrite Hu. rewrite Hr in Hg.
        destruct (JsMap.get sid (streamRooms st)) as [s0|] eqn:E0; [|discriminate].
        injection Hg as <-. apply In_delete in Hx. destruct Hx as [Hx Hne].
        rewrite has_delete_other by congruence. now apply (Hm sid s0).
      * intros sid room Hg. rewrite Hr in Hg.
        destruct (JsMap.get sid (streamRooms st)) as [s0|] eqn:E0; [|discriminate].
        injection Hg as <-. apply JsSetFacts.NoDup_delete. now apply (Hs sid).
    + destruct H as (Hr & Hu & _). split.
      * intros sid room x Hg Hx. rewrite Hu. rewrite Hr in Hg. now apply (Hm sid room).
      * intros sid room Hg. rewrite Hr in Hg. now apply (Hs sid).
  - destruct (registry_kept ok (Notify userId n) st) as (Hu & _ & Hr).
    cbn [service] in *. split.
    + intros sid room x Hg Hx. rewrite Hu. rewrite Hr in Hg. now apply (Hm sid room).
    + intros sid room Hg. rewrite Hr in Hg. now apply (Hs sid).
  - destruct (registry_kept ok (Elapse ms) st) as (Hu & _ & Hr).
    cbn [service] in *. split.
    + intros sid room x Hg Hx. rewrite Hu. rewrite Hr in Hg. now apply (Hm sid room).
    + intros sid room Hg. rewrite Hr in Hg. now apply (Hs sid).
Qed.

Lemma rooms_sound_step ok ev st :
  rooms_sound st -> rooms_sound (fst (step ok ev st)).
Proof.
  intros H. unfold step. rewrite seq_state. apply rooms_sound_service.
  destruct (server_js_keeps_service_maps ev st) as (Hr & Hu & _).
  destruct H as [Hm Hs]. split.
  - intros sid room x Hg Hx. rewrite Hu. rewrite Hr in Hg. now apply (Hm sid room).
  - intros sid room Hg. rewrite Hr in Hg. now apply (Hs sid).
Qed.

Lemma rooms_sound_run trace : forall st,
  rooms_sound st -> rooms_sound (fst (run trace st)).
Proof.
  induction trace as [|[ok ev] r IH]; intros st H; [exact H|].
  rewrite run_cons. cbn [fst]. apply IH. now apply rooms_sound_step.
Qed.

Lemma rooms_sound_boot us ss : rooms_sound (boot us ss).
Proof. split; intros sid room; discriminate. Qed.

(** X3.  Whatever events the service has handled, every socket in the
    member set of a stream has an entry in [userSockets]: a socket gets
    into a set only through [join-stream], which turns away sockets that
    have not authenticated, and [disconnect] removes the socket from
    every set when it removes its entry. *)
Theorem rooms_hold_only_authenticated_sockets us ss trace streamId :
  List.Forall
    (fun socket =>
       JsMap.has socket (userSockets (fst (run trace (boot us ss)))) = true)
    (room_sockets streamId (fst (run trace (boot us ss)))).
Proof.
  destruct (rooms_sound_run trace _ (rooms_sound_boot us ss)) as [Hm _].
  apply List.Forall_forall. intros x Hx. unfold room_sockets in Hx.
  destruct (JsMap.get streamId (streamRooms (fst (run trace (boot us ss)))))
    as [s|] eqn:E; [|destruct Hx].
  now apply (Hm streamId s).
Qed.

Lemma getStreamViewers_registered streamId st :
  List.Forall (fun socket => JsMap.has socket (userSockets st) = true)
    (room_sockets streamId st) ->
  List.Forall2
    (fun viewer socket =>
       option_map viewer_of (JsMap.get socket (userSockets st)) = Some viewer)
    (getStreamViewers streamId st) (room_sockets streamId st).
Proof.
  unfold getStreamViewers, room_sockets.
  destruct (JsMap.get streamId (streamRooms st)) as [s|]; [|constructor].
  induction s as [|x r IH]; intros H; [constructor|].
  inversion H as [|? ? Hx Hr]; subst. cbn [flat_map].
  unfold JsMap.has in Hx.
  destruct (JsMap.get x (userSockets st)) as [info|] eqn:E; [|discriminate].
  cbn [app]. constructor; [now rewrite E | now apply IH].
Qed.

(** X4.  In every state the service reaches, [getStreamViewers] lists the
    member sockets of the stream one for one and in the order they
    joined: each entry is the identity its socket last authenticated
    with, and none is dropped.  For a stream the service tracks no set
    for, the list is empty. *)
Theorem getStreamViewers_lists_every_member us ss trace streamId :
  let st := fst (run trace (boot us ss)) in
  List.Forall2
    (fun viewer socket =>
       option_map viewer_of (JsMap.get socket (userSockets st)) = Some viewer)
    (getStreamViewers streamId st) (room_sockets streamId st).
Proof.
  intros st. apply getStreamViewers_registered.
  destruct (rooms_sound_run trace _ (rooms_sound_boot us ss)) as [Hm _].
  apply List.Forall_forall. intros x Hx. unfold room_sockets in Hx.
  destruct (JsMap.get streamId (streamRooms st)) as [s|] eqn:E; [|destruct Hx].
  now apply (Hm streamId s).
Qed.



(** X6.  After a socket's [disconnect] has been handled it is in no
    member set, whatever happened before; the other sockets are in the
    sets they were in. *)
Theorem disconnect_evicts_from_every_room us ss trace ok socket streamId :
  let st := fst (run trace (boot us ss)) in
  let st' := fst (step ok (Disconnect socket) st) in
  room_sockets streamId st' = JsSet.delete socket (room_sockets streamId st)
  /\ JsSet.has socket (room_sockets streamId st') = false.
Proof.
  intros st st'.
  assert (E : room_sockets streamId st'
              = JsSet.delete socket (room_sockets streamId st)).
  { destruct (rooms_sound_run trace _ (rooms_sound_boot us ss)) as [Hm _].
    fold st in Hm. unfold st', step. rewrite seq_state.
    change (fst (server_js (Disconnect socket) st)) with st. cbn [service].
    destruct (disconnect_state ok socket st) as [H _]. cbv zeta in H.
    unfold room_sockets.
    destruct (JsMap.get socket (userSockets st)) as [info|] eqn:Eu.
    - destruct H as (Hr & _). rewrite Hr.
      now destruct (JsMap.get streamId (streamRooms st)).
    - destruct H as (Hr & _). rewrite Hr.
      destruct (JsMap.get streamId (streamRooms st)) as [s|] eqn:Er; [|reflexivity].
      symmetry. apply JsSetFacts.delete_absent.
      destruct (JsSet.has socket s) eqn:Hs; [|reflexivity].
      apply JsSetFacts.has_In in Hs. apply (Hm streamId s socket Er) in Hs.
      unfold JsMap.has in Hs. now rewrite Eu in Hs. }
  split; [exact E|]. rewrite E. apply JsSetFacts.has_delete.
Qed.

Lemma delete_add_absent x s : JsSet.has x s = false -> JsSet.delete x (JsSet.add x s) = s.
Proof.
  intros H. unfold JsSet.add. rewrite H. unfold JsSet.delete.
  rewrite List.filter_app. cbn [List.filter]. rewrite String.eqb_refl. cbn [negb].
  rewrite app_nil_r. now apply JsSetFacts.delete_absent.
Qed.

(** X7.  A socket that sends [join-stream] for a stream it is already
    counted in is not counted twice: the member sets stay as they were
    and the count that goes out is the size the set had.  The others are
    told [viewer-joined] all the same. *)
Theorem rejoining_is_not_counted_twice ok socket streamId info s st :
  JsMap.get socket (userSockets st) = Some info ->
  JsMap.get streamId (streamRooms st) = Some s ->
  JsSet.has socket s = true ->
  streamRooms (fst (join_stream ok socket streamId st)) = streamRooms st
  /\ snd (join_stream ok socket streamId st)
     = (if ok (Stream_findByIdAndUpdate streamId)
        then [(ToRoom (stream_room streamId),
               E_viewer_count_update streamId (JsSet.size s))]
        else [])
       ++ [(ToRoomExcept (stream_room streamId) socket,
            E_viewer_joined (UserInfo.username info) (JsSet.size s));
           (ToSocket socket,
            E_stream_joined streamId (JsSet.size s) "Successfully joined stream")].
Proof.
  intros Hu Hr Hs. split.
  - destruct (join_stream_state ok socket streamId info st Hu) as (H & _).
    cbv zeta in H. rewrite H, Hr. unfold JsSet.add. rewrite Hs.
    now apply set_same.
  - unfold join_stream, reading. rewrite Hu.
    unfold socket_join, seq, modify, reading. cbn [fst snd with_joined streamRooms].
    rewrite Hr. unfold JsSet.add. rewrite Hs. unfold updateStreamViewerCount.
    destruct (ok (Stream_findByIdAndUpdate streamId)); reflexivity.
Qed.

Lemma rejoining_is_not_counted_twice_witness :
  streamRooms (fst (join_stream allOk "s1" "live1" one_watching))
  = streamRooms one_watching
  /\ snd (join_stream allOk "s1" "live1" one_watching)
     = [(ToRoom (stream_room "live1"), E_viewer_count_update "live1" 1);
        (ToRoomExcept (stream_room "live1") "s1", E_viewer_joined "ann" 1);
        (ToSocket "s1", E_stream_joined "live1" 1 "Successfully joined stream")].
Proof.
  apply (rejoining_is_not_counted_twice allOk "s1" "live1"
           (UserInfo.mk "u1" "ann" "s1" 0) ["s1"] one_watching); reflexivity.
Defined.

(** X8.  An authenticated socket that joins a stream it was not in and
    then leaves it puts every member set back as it was. *)
Theorem join_then_leave_restores_the_rooms ok ok' socket streamId info st :
  JsMap.get socket (userSockets st) = Some info ->
  JsSet.has socket (room_sockets streamId st) = false ->
  forall sid,
    room_sockets sid
      (fst (leave_stream ok' socket streamId (fst (join_stream ok socket streamId st))))
    = room_sockets sid st.
Proof.
  intros Hu Hs sid.
  destruct (join_stream_state ok socket streamId info st Hu) as (Hr1 & Hu1 & _).
  destruct (leave_stream_state ok' socket streamId
              (fst (join_stream ok socket streamId st))) as (Hr2 & _).
  cbv zeta in *. unfold room_sockets in *. rewrite Hr2, Hu1, Hr1.
  unfold JsMap.has at 1. rewrite Hu. cbn [andb].
  destruct (String.eqb_spec streamId sid) as [->|Hne].
  - rewrite JsMapFacts.get_set_eq. cbn [option_map].
    now apply delete_add_absent.
  - now rewrite JsMapFacts.get_set_ne.
Qed.

Lemma join_then_leave_restores_the_rooms_witness :
  room_sockets "live1"
    (fst (leave_stream allOk "s2" "live1"
            (fst (join_stream allOk "s2" "live1" one_watching))))
  = room_sockets "live1" one_watching.
Proof.
  apply (join_then_leave_restores_the_rooms allOk allOk "s2" "live1"
           (UserInfo.mk "u2" "bob" "s2" 0) one_watching); reflexivity.
Defined.

(* ===================================================================== *)
(** ** What the service reports about itself *)
(* ===================================================================== *)

Lemma size_set {V} k (v : V) m :
  JsMap.size (JsMap.set k v m) = JsMap.size m + (if JsMap.has k m then 0 else 1).
Proof.
  unfold JsMap.size, JsMap.has. induction m as [|[k' v'] r IH]; [reflexivity|].
  cbn [JsMap.set JsMap.get]. destruct (String.eqb k k'); cbn [length].
  - lia.
  - rewrite IH. lia.
Qed.

Lemma size_delete {V} k (m : list (string * V)) :
  List.NoDup (JsMap.keys m) ->
  JsMap.size (JsMap.delete k m) + (if JsMap.has k m then 1 else 0) = JsMap.size m.
Proof.
  unfold JsMap.size, JsMap.has, JsMap.keys. induction m as [|[k' v'] r IH]; [reflexivity|].
  cbn [map fst]. intros H. inversion H as [|? ? Hk Hr]; subst.
  cbn [JsMap.delete JsMap.get]. destruct (String.eqb_spec k k') as [->|Hne].
  - cbn [length]. specialize (IH Hr).
    assert (E : JsMap.get k' r = None).
    { destruct (JsMap.get k' r) eqn:E; [|reflexivity].
      exfalso. apply Hk. apply (JsMapFacts.has_keys k' r). unfold JsMap.has.
      now rewrite E. }
    rewrite E in IH. lia.
  - cbn [length]. specialize (IH Hr). lia.
Qed.

Lemma keys_set_extends {V} k (v : V) m :
  exists more, JsMap.keys (JsMap.set k v m) = JsMap.keys m ++ more.
Proof.
  destruct (in_dec string_dec k (JsMap.keys m)) as [Hin|Hin].
  - exists []. rewrite app_nil_r. now apply JsMapFacts.keys_set_in.
  - exists [k]. now apply JsMapFacts.keys_set_notin.
Qed.

(** X9.  The service never forgets a stream: the streams [streamRooms]
    has a set for stay in it, in their order, when every viewer has
    left, so [getActiveStreamsCount] never goes down. *)
Theorem getActiveStreamsCount_never_decreases trace st :
  (exists more,
     JsMap.keys (streamRooms (fst (run trace st)))
     = JsMap.keys (streamRooms st) ++ more)
  /\ getActiveStreamsCount st <= getActiveStreamsCount (fst (run trace st)).
Proof.
  assert (H : maintains
            (fun s => exists more,
               JsMap.keys (streamRooms s) = JsMap.keys (streamRooms st) ++ more)
            (fun _ => True) (run trace)).
  { apply maintains_for_each. intros [ok ev]. destruct ev; simpl.
    all: unfold step, server_js, service, authenticate, join_stream, leave_stream,
           chat_message, disconnect, elapse, fire, offlineTimeout,
           leaveRoomOnDisconnect, updateStreamViewerCount, notifyStreamerMention,
           notifyFollowersUserOffline, notifyFollowersUserOnline,
           sendPendingNotifications, sendNotificationToUser,
           socket_join, socket_leave, socket_leave_all.
    all: maintain.
    all: try (now apply maintains_emit).
    all: apply maintains_modify; intros z [more Hz]; simpl;
      try (now exists more).
    all: match goal with
         | |- context [JsMap.set ?k ?v (streamRooms ?w)] =>
             destruct (keys_set_extends k v (streamRooms w)) as [m' Hm'];
             exists (more ++ m'); rewrite Hm', Hz; now rewrite app_assoc
         end. }
  destruct (H st) as [[more Hm] _]; [exists []; now rewrite app_nil_r|].
  split; [now exists more|].
  unfold getActiveStreamsCount, JsMap.size.
  rewrite <- (length_map fst (streamRooms (fst (run trace st)))).
  rewrite <- (length_map fst (streamRooms st)).
  change (map fst (streamRooms (fst (run trace st))))
    with (JsMap.keys (streamRooms (fst (run trace st)))).
  rewrite Hm. change (map fst (streamRooms st)) with (JsMap.keys (streamRooms st)).
  rewrite length_app. lia.
Qed.

(** X10.  [getOnlineUsersCount] counts entries of [connectedUsers], one
    per user: in every state the service reaches, an [authenticate]
    raises it by one when the user had no entry and leaves it alone when
    the user had one (a second device is not counted), and the
    [disconnect] of an authenticated socket lowers it by one when the
    socket's user had an entry, whichever socket the entry named. *)
Theorem online_count_is_per_user us ss trace :
  let st := fst (run trace (boot us ss)) in
  (forall ok socket userId username,
     getOnlineUsersCount (fst (step ok (Authenticate socket userId username) st))
     = getOnlineUsersCount st
       + (if JsMap.has userId (connectedUsers st) then 0 else 1))
  /\ (forall ok socket,
        getOnlineUsersCount (fst (step ok (Disconnect socket) st))
        + match JsMap.get socket (userSockets st) with
          | Some info =>
              if JsMap.has (UserInfo.userId info) (connectedUsers st) then 1 else 0
          | None => 0
          end
        = getOnlineUsersCount st).
Proof.
  intros st. split.
  - intros ok socket userId username. unfold step. rewrite seq_state.
    change (fst (server_js (Authenticate socket userId username) st)) with st.
    cbn [service]. unfold getOnlineUsersCount.
    destruct (authenticate_registers ok socket userId username st) as [_ ->].
    apply size_set.
  - intros ok socket. unfold step. rewrite seq_state.
    change (fst (server_js (Disconnect socket) st)) with st. cbn [service].
    unfold getOnlineUsersCount.
    destruct (disconnect_state ok socket st) as [H _]. cbv zeta in H.
    destruct (JsMap.get socket (userSockets st)) as [info|].
    + destruct H as (_ & _ & -> & _). apply size_delete.
      apply distinct_NoDup, connectedUsers_keys_distinct.
    + destruct H as (_ & _ & -> & _). lia.
Qed.

(* ===================================================================== *)
(** ** The queue between two authentications *)
(* ===================================================================== *)

Lemma pending_grows_by_notification P userId k n :
  maintains (fun s => exists more, pending userId s = P ++ more) (fun _ => True)
    (sendNotificationToUser k n).
Proof.
  unfold sendNotificationToUser. maintain.
  - now apply maintains_emit.
  - apply maintains_modify. intros st [more H].
    destruct (String.eqb_spec k userId) as [->|Hne].
    + exists (more ++ [n]). rewrite pending_after_enqueue, H. now rewrite app_assoc.
    + exists more. now rewrite pending_after_enqueue_other.
Qed.

Lemma pending_grows_step P userId ok ev :
  authenticates userId ev = false ->
  maintains (fun s => exists more, pending userId s = P ++ more) (fun _ => True)
    (step ok ev).
Proof.
  intros Ha. destruct ev; cbn [authenticates] in Ha.
  all: unfold step, server_js, service, authenticate, join_stream, leave_stream,
         chat_message, disconnect, elapse, fire, offlineTimeout,
         leaveRoomOnDisconnect, updateStreamViewerCount, notifyStreamerMention,
         notifyFollowersUserOffline, notifyFollowersUserOnline,
         sendPendingNotifications,
         socket_join, socket_leave, socket_leave_all.
  all: maintain.
  all: try (now apply maintains_emit).
  all: try apply pending_grows_by_notification.
  all: try (apply maintains_modify; intros ? Hkept; exact Hkept).
  all: apply maintains_modify; intros z [more Hz]; exists more.
  all: apply String.eqb_neq in Ha.
  all: unfold pending in *; cbn [with_notificationQueue notificationQueue].
  all: now rewrite JsMapFacts.get_delete_ne.
Qed.

(** X11.  What is queued for a user stays queued, in its order, until that
    user authenticates: whatever else the service handles in between
    (other users' events, disconnects, timers, notifications), the queue
    is only ever extended at its end. *)
Theorem queue_is_only_extended_until_authenticate userId trace : forall st,
  forallb (fun e => negb (authenticates userId (snd e))) trace = true ->
  exists more, pending userId (fst (run trace st)) = pending userId st ++ more.
Proof.
  induction trace as [|[ok ev] r IH]; intros st H.
  - exists []. now rewrite app_nil_r.
  - cbn [forallb snd] in H. apply andb_true_iff in H. destruct H as [Ha Hr].
    apply negb_true_iff in Ha. rewrite run_cons. cbn [fst].
    destruct (pending_grows_step (pending userId st) userId ok ev Ha st) as [[m1 H1] _].
    { exists []. now rewrite app_nil_r. }
    destruct (IH (fst (step ok ev st)) Hr) as [m2 H2].
    exists (m1 ++ m2). now rewrite H2, H1, app_assoc.
Qed.

Lemma queue_is_only_extended_until_authenticate_witness :
  exists more,
    pending "u2"
      (fst (run [ (allOk, Authenticate "a" "u1" "ann");
                  (allOk, Notify "u2" (notice "hello"));
                  (allOk, Disconnect "a");
                  (allOk, Elapse 30000) ]
              (fst (run [(allOk, Notify "u2" (notice "first"))] presence_world))))
    = pending "u2" (fst (run [(allOk, Notify "u2" (notice "first"))] presence_world))
      ++ more.
Proof.
  apply (queue_is_only_extended_until_authenticate "u2"). reflexivity.
Defined.

(* ===================================================================== *)
(** ** A failed authenticate *)
(* ===================================================================== *)

Lemma join_stream_out ok socket streamId info st :
  JsMap.get socket (userSockets st) = Some info ->
  let n := JsSet.size (JsSet.add socket (room_sockets streamId st)) in
  snd (join_stream ok socket streamId st)
  = (if ok (Stream_findByIdAndUpdate streamId)
     then [(ToRoom (stream_room streamId), E_viewer_count_update streamId n)]
     else [])
    ++ [(ToRoomExcept (stream_room streamId) socket,
         E_viewer_joined (UserInfo.username info) n);
        (ToSocket socket, E_stream_joined streamId n "Successfully joined stream")].
Proof.
  intros Hu. unfold join_stream, reading. rewrite Hu.
  unfold socket_join, seq, modify, reading, room_sockets.
  cbn [fst snd with_joined streamRooms]. unfold updateStreamViewerCount.
  destruct (ok (Stream_findByIdAndUpdate streamId)); reflexivity.
Qed.

(** X12.  A socket whose [authenticate] was answered
    [authentication_error], because the status write was rejected, is
    registered all the same: a [join-stream] it sends next is accepted,
    it is counted among the viewers, and it is told so. *)
Theorem failed_authenticate_still_admits ok ok' socket userId username streamId st :
  ok (User_findByIdAndUpdate userId) = false ->
  let st1 := fst (step ok (Authenticate socket userId username) st) in
  let st2 := fst (step ok' (JoinStream socket streamId) st1) in
  snd (step ok (Authenticate socket userId username) st)
  = [(ToSocket socket, E_authentication_error "Authentication failed")]
  /\ JsSet.has socket (room_sockets streamId st2) = true
  /\ In (ToSocket socket,
         E_stream_joined streamId (JsSet.size (room_sockets streamId st2))
           "Successfully joined stream")
        (snd (step ok' (JoinStream socket streamId) st1)).
Proof.
  intros Hok st1 st2.
  assert (Hout : snd (step ok (Authenticate socket userId username) st)
                 = [(ToSocket socket, E_authentication_error "Authentication failed")]).
  { unfold step, server_js, service, authenticate, reading, seq, modify, socket_join.
    rewrite Hok. reflexivity. }
  assert (Hu : JsMap.get socket (userSockets st1)
               = Some (UserInfo.mk userId username socket (now st))).
  { unfold st1, step. rewrite seq_state.
    change (fst (server_js (Authenticate socket userId username) st)) with st.
    cbn [service].
    destruct (authenticate_registers ok socket userId username st) as [-> _].
    apply JsMapFacts.get_set_eq. }
  split; [exact Hout|].
  set (s1 := fst (server_js (JoinStream socket streamId) st1)).
  assert (Hu' : JsMap.get socket (userSockets s1)
                = Some (UserInfo.mk userId username socket (now st))) by exact Hu.
  assert (E2 : st2 = fst (join_stream ok' socket streamId s1)) by reflexivity.
  destruct (join_stream_state ok' socket streamId _ s1 Hu') as (Hr & _).
  cbv zeta in Hr.
  assert (Hroom : room_sockets streamId st2
                  = JsSet.add socket (room_sockets streamId s1)).
  { unfold room_sockets at 1. rewrite E2, Hr. now rewrite JsMapFacts.get_set_eq. }
  split.
  - rewrite Hroom. apply JsSetFacts.has_In, In_add. now left.
  - rewrite Hroom. unfold step. rewrite seq_out. fold s1. cbn [service].
    apply in_or_app. right.
    rewrite (join_stream_out ok' socket streamId _ s1 Hu'). cbv zeta.
    apply in_or_app. right. right. now left.
Qed.

Lemma failed_authenticate_still_admits_witness :
  snd (step statusWriteFails (Authenticate "s1" "u1" "ann") init)
  = [(ToSocket "s1", E_authentication_error "Authentication failed")]
  /\ JsSet.has "s1"
       (room_sockets "live1"
          (fst (step allOk (JoinStream "s1" "live1")
                  (fst (step statusWriteFails (Authenticate "s1" "u1" "ann") init)))))
     = true
  /\ In (ToSocket "s1",
         E_stream_joined "live1"
           (JsSet.size
              (room_sockets "live1"
                 (fst (step allOk (JoinStream "s1" "live1")
                         (fst (step statusWriteFails
                                 (Authenticate "s1" "u1" "ann") init))))))
           "Successfully joined stream")
        (snd (step allOk (JoinStream "s1" "live1")
                (fst (step statusWriteFails (Authenticate "s1" "u1" "ann") init)))).
Proof.
  apply (failed_authenticate_still_admits statusWriteFails allOk "s1" "u1" "ann"
           "live1" init). reflexivity.
Defined.

(* ===================================================================== *)
(** ** Socket.IO rooms that are never left *)
(* ===================================================================== *)

Lemma members_joined socket r st :
  In socket (members r st) <-> In (socket, r) (joined st).
Proof.
  unfold members. rewrite in_map_iff. split.
  - intros [[s r'] [Hs Hin]]. simpl in Hs. subst s.
    apply filter_In in Hin. destruct Hin as [Hin Hr]. simpl in Hr.
    assert (r' = r) as ->; [|exact Hin].
    destruct r', r; simpl in Hr; try discriminate;
      apply String.eqb_eq in Hr; now subst.
  - intros Hin. exists (socket, r). split; [reflexivity|].
    apply filter_In. split; [exact Hin | apply Room_eqb_refl].
Qed.

Lemma membership_kept_by_step socket r ok ev :
  is_service_room r = false ->
  closes socket ev = false ->
  maintains (fun s => In (socket, r) (joined s)) (fun _ => True) (step ok ev).
Proof.
  intros Hr Hc. destruct ev; cbn [closes] in Hc.
  all: unfold step, server_js, service, authenticate, join_stream, leave_stream,
         chat_message, disconnect, elapse, fire, offlineTimeout,
         leaveRoomOnDisconnect, updateStreamViewerCount, notifyStreamerMention,
         notifyFollowersUserOffline, notifyFollowersUserOnline,
         sendPendingNotifications, sendNotificationToUser.
  all: maintain.
  all: try (now apply maintains_emit).
  all: try (apply maintains_modify; intros ? Hkept; exact Hkept).
  all: intros z Hz; (split; [|constructor]).
  all: try (apply In_joined_after_join; now left).
  - unfold socket_leave, modify. cbn [fst with_joined joined].
    apply filter_In. split; [exact Hz|]. unfold in_room. cbn [fst snd].
    destruct r; try discriminate; cbn [Room_eqb]; now rewrite andb_false_r.
  - unfold socket_leave_all, modify. cbn [fst with_joined joined].
    apply filter_In. split; [exact Hz|]. cbn [fst].
    now rewrite String.eqb_sym, Hc.
Qed.

Lemma membership_kept_by_run socket r trace : forall st,
  is_service_room r = false ->
  forallb (fun e => negb (closes socket (snd e))) trace = true ->
  In (socket, r) (joined st) ->
  In (socket, r) (joined (fst (run trace st))).
Proof.
  induction trace as [|[ok ev] t IH]; intros st Hr H Hin; [exact Hin|].
  cbn [forallb snd] in H. apply andb_true_iff in H. destruct H as [Hc Ht].
  apply negb_true_iff in Hc. rewrite run_cons. cbn [fst].
  apply IH; [exact Hr | exact Ht |].
  now apply (membership_kept_by_step socket r ok ev Hr Hc st).
Qed.

(** X13.  A socket that has authenticated as a user is in that user's
    personal room until it disconnects, whatever it does in between,
    authenticating as somebody else included: every notification sent to
    that user meanwhile reaches it. *)
Theorem socket_stays_in_personal_room ok socket userId username trace st n :
  forallb (fun e => negb (closes socket (snd e))) trace = true ->
  In socket
    (receivers
       (fst (run trace (fst (step ok (Authenticate socket userId username) st))))
       (ToRoom (user_room userId), E_notification n)).
Proof.
  intros H. unfold receivers. cbn [fst]. apply members_joined.
  apply membership_kept_by_run; [reflexivity | exact H |].
  assert (Hj : maintains (fun s => In (socket, user_room userId) (joined s))
                 (fun _ => True)
                 (if ok (User_findByIdAndUpdate userId)
                  then
                    modify (with_users (alter (User.setOnline true (now st)) userId)) >>>
                    sendPendingNotifications userId >>>
                    emit (ToSocket socket) (E_authenticated "Successfully authenticated") >>>
                    notifyFollowersUserOnline ok userId username
                  else emit (ToSocket socket)
                         (E_authentication_error "Authentication failed"))).
  { unfold sendPendingNotifications, notifyFollowersUserOnline, sendNotificationToUser.
    untouched. }
  unfold step. rewrite seq_state.
  change (fst (server_js (Authenticate socket userId username) st)) with st.
  cbn [service]. unfold authenticate, reading. rewrite !seq_state.
  apply Hj. apply In_joined_after_join. now right.
Qed.

Lemma socket_stays_in_personal_room_witness :
  In "s1"
    (receivers
       (fst (run [ (allOk, Authenticate "s1" "u2" "bob");
                   (allOk, JoinStream "s1" "live1") ]
               (fst (step allOk (Authenticate "s1" "u1" "ann") init))))
       (ToRoom (user_room "u1"), E_notification (notice "for ann"))).
Proof.
  apply (socket_stays_in_personal_room allOk "s1" "u1" "ann"). reflexivity.
Defined.

(** X14.  [join-stream] puts the sending socket in the room server.js
    keeps for the stream whether or not the socket has authenticated,
    and nothing but its disconnect takes it out again, [leave-stream]
    included: every chat payload another socket sends for that stream
    meanwhile is relayed to it. *)
Theorem server_js_relays_to_every_joiner
    ok ok' socket sender streamId message trace st :
  forallb (fun e => negb (closes socket (snd e))) trace = true ->
  sender <> socket ->
  let st' := fst (run trace (fst (step ok (JoinStream socket streamId) st))) in
  hd_error (snd (step ok' (ChatMessageEv sender streamId message) st'))
  = Some (relayed sender streamId message)
  /\ In socket (receivers st' (relayed sender streamId message)).
Proof.
  intros H Hne st'. split; [reflexivity|].
  unfold receivers, relayed. cbn [fst]. apply filter_In. split.
  - apply members_joined. apply membership_kept_by_run; [reflexivity | exact H |].
    unfold step. rewrite seq_state. cbn [server_js].
    set (s1 := fst (socket_join socket (server_stream_room streamId) st)).
    assert (H1 : In (socket, server_stream_room streamId) (joined s1)).
    { apply In_joined_after_join. now right. }
    clearbody s1.
    assert (Hj : maintains
              (fun s => In (socket, server_stream_room streamId) (joined s))
              (fun _ => True) (service ok (JoinStream socket streamId))).
    { cbn [service]. unfold join_stream, updateStreamViewerCount. maintain.
      all: try (now apply maintains_emit).
      all: try (apply maintains_modify; intros ? Hkept; exact Hkept).
      intros z Hz. split; [|constructor]. apply In_joined_after_join. now left. }
    now apply Hj.
  - apply negb_true_iff, String.eqb_neq. congruence.
Qed.

Lemma server_js_relays_to_every_joiner_witness :
  hd_error
    (snd (step allOk (ChatMessageEv "s1" "live1" (Some "hello"))
            (fst (run [ (allOk, LeaveStream "s9" "live1") ]
                    (fst (step allOk (JoinStream "s9" "live1") one_watching))))))
  = Some (relayed "s1" "live1" (Some "hello"))
  /\ In "s9"
       (receivers
          (fst (run [ (allOk, LeaveStream "s9" "live1") ]
                  (fst (step allOk (JoinStream "s9" "live1") one_watching))))
          (relayed "s1" "live1" (Some "hello"))).
Proof.
  apply (server_js_relays_to_every_joiner allOk allOk "s9" "s1" "live1"
           (Some "hello") [ (allOk, LeaveStream "s9" "live1") ] one_watching).
  - reflexivity.
  - discriminate.
Defined.

(* ===================================================================== *)
(** ** The stored viewer count *)
(* ===================================================================== *)





(* ===================================================================== *)
(** ** Durations *)
(* ===================================================================== *)






(* ===================================================================== *)
(** ** middleware/auth.js: [loginRateLimit] *)
(* ===================================================================== *)

Lemma cleanUp_lookup now attempts ip :
  cleanUp now attempts !! ip
  = match attempts !! ip with
    | Some a => if stale now a then None else Some a
    | None => None
    end.
Proof.
  unfold cleanUp. destruct (attempts !! ip) as [a|] eqn:E.
  - destruct (stale now a) eqn:Hs.
    + apply map_lookup_filter_None. right. intros a' Ha'. cbn.
      rewrite E in Ha'. injection Ha' as <-. congruence.
    + apply map_lookup_filter_Some. now split.
  - apply map_lookup_filter_None. now left.
Qed.

Lemma lookup_other_address ip other now attempts :
  other <> ip ->
  fst (loginRateLimit ip now attempts) !! other = cleanUp now attempts !! other.
Proof.
  intros Hne. unfold loginRateLimit. cbv zeta.
  destruct (cleanUp now attempts !! ip) as [a|].
  - destruct (maxAttempts <=? Attempts.count a)%nat; cbn [fst]; [reflexivity|].
    now rewrite lookup_insert_ne.
  - cbn [fst]. now rewrite lookup_insert_ne.
Qed.

(** X17.  What the middleware keeps for an address changes through the
    requests of other addresses only by being dropped once its window is
    over: their attempts are never counted against it. *)
Theorem another_address_is_not_charged ip other now attempts :
  other <> ip ->
  fst (loginRateLimit ip now attempts) !! other
  = match attempts !! other with
    | Some a => if stale now a then None else Some a
    | None => None
    end.
Proof.
  intros Hne. rewrite <- cleanUp_lookup. now apply lookup_other_address.
Qed.

Lemma another_address_is_not_charged_witness :
  fst (loginRateLimit "10.0.0.1" 1000 (<["10.0.0.2" := Attempts.mk 3 0]> ∅))
    !! "10.0.0.2"
  = match (<["10.0.0.2" := Attempts.mk 3 0]> ∅ : gmap string Attempts.t) !! "10.0.0.2" with
    | Some a => if stale 1000 a then None else Some a
    | None => None
    end.
Proof.
  apply (another_address_is_not_charged "10.0.0.1" "10.0.0.2" 1000
           (<["10.0.0.2" := Attempts.mk 3 0]> ∅)).
  discriminate.
Defined.

Lemma window_open_lookup ip t0 c now attempts :
  attempts !! ip = Some (Attempts.mk c t0) ->
  (now - t0 <= windowMs)%Z ->
  cleanUp now attempts !! ip = Some (Attempts.mk c t0).
Proof.
  intros H Hw. rewrite cleanUp_lookup, H. unfold stale. cbn.
  destruct (Z.ltb_spec windowMs (now - t0)); [lia | reflexivity].
Qed.

Lemma in_window_count ip t0 later : forall attempts c,
  attempts !! ip = Some (Attempts.mk c t0) ->
  c <= 5 ->
  List.Forall (fun r => (snd r - t0 <= windowMs)%Z) later ->
  length (List.filter (let_through ip) (serve later attempts))
  = Nat.min (5 - c) (length (List.filter (from_address ip) later)).
Proof.
  induction later as [|[ip' t] r IH]; intros attempts c H Hc Hw.
  - cbn. lia.
  - inversion Hw as [|? ? Ht Hr]; subst. cbn [snd] in Ht.
    pose proof (window_open_lookup ip t0 c t attempts H Ht) as Hl.
    cbn [serve List.filter]. unfold let_through at 1, from_address at 1. cbn [fst snd].
    destruct (String.eqb_spec ip' ip) as [->|Hne].
    + unfold loginRateLimit. cbv zeta. rewrite Hl. cbn [Attempts.count Attempts.firstAttempt].
      unfold maxAttempts. destruct (Nat.leb_spec 5 c) as [H5|H5]; cbn [fst snd andb].
      * rewrite (IH _ c Hl Hc Hr). cbn [length]. lia.
      * cbn [length].
        rewrite (IH _ (S c) (lookup_insert_eq _ _ _) ltac:(lia) Hr). lia.
    + cbn [andb].
      assert (Hs : fst (loginRateLimit ip' t attempts) !! ip = Some (Attempts.mk c t0)).
      { rewrite lookup_other_address by congruence.
        now apply window_open_lookup. }
      apply (IH _ c Hs Hc Hr).
Qed.

(** X18.  An address that starts a window at time [t0] is let through at
    most five times in it: while the requests that follow, its own and
    those of other addresses, all arrive no later than 15 minutes after
    [t0], the number of its requests passed on is the smaller of five
    and the number it has made.  (This holds for every such sequence,
    so the five passed on are its first five.) *)
Theorem five_attempts_per_window ip t0 later attempts :
  cleanUp t0 attempts !! ip = None ->
  List.Forall (fun r => (snd r - t0 <= windowMs)%Z) later ->
  length (List.filter (let_through ip) (serve ((ip, t0) :: later) attempts))
  = Nat.min 5 (S (length (List.filter (from_address ip) later))).
Proof.
  intros H0 Hw. cbn [serve List.filter]. unfold let_through at 1. cbn [fst snd].
  rewrite String.eqb_refl. unfold loginRateLimit. cbv zeta. rewrite H0.
  cbn [fst snd andb length].
  rewrite (in_window_count ip t0 later _ 1 (lookup_insert_eq _ _ _) ltac:(lia) Hw).
  lia.
Qed.

Lemma five_attempts_per_window_witness :
  length (List.filter (let_through "10.0.0.1")
            (serve (("10.0.0.1", 0%Z)
                    :: [("10.0.0.1", 1000%Z); ("10.0.0.2", 2000%Z);
                        ("10.0.0.1", 3000%Z); ("10.0.0.1", 4000%Z);
                        ("10.0.0.1", 5000%Z); ("10.0.0.1", 6000%Z);
                        ("10.0.0.1", 900000%Z)]) ∅))
  = 5.
Proof.
  apply (five_attempts_per_window "10.0.0.1" 0
           [("10.0.0.1", 1000%Z); ("10.0.0.2", 2000%Z);
            ("10.0.0.1", 3000%Z); ("10.0.0.1", 4000%Z);
            ("10.0.0.1", 5000%Z); ("10.0.0.1", 6000%Z);
            ("10.0.0.1", 900000%Z)] ∅).
  - reflexivity.
  - repeat constructor; cbn; unfold windowMs; lia.
Defined.

(** X19.  An address that has used up its five attempts is turned away
    until 15 minutes after the first of them and not longer: a request
    in the window is answered 429 and leaves the record as it is, so the
    attempts made while blocked do not prolong the block; the first
    request after the window is let through and starts a new window. *)
Theorem blocked_until_the_window_ends ip now attempts a :
  attempts !! ip = Some a ->
  maxAttempts <= Attempts.count a ->
  loginRateLimit ip now attempts
  = (if stale now a
     then (<[ip := Attempts.mk 1 now]> (cleanUp now attempts), next)
     else (cleanUp now attempts,
           status_429 (ceil_minutes (Attempts.firstAttempt a + windowMs - now))))
  /\ (stale now a = false ->
      fst (loginRateLimit ip now attempts) !! ip = Some a).
Proof.
  intros H Hc.
  assert (E : loginRateLimit ip now attempts
              = if stale now a
                then (<[ip := Attempts.mk 1 now]> (cleanUp now attempts), next)
                else (cleanUp now attempts,
                      status_429 (ceil_minutes
                        (Attempts.firstAttempt a + windowMs - now)))).
  { unfold loginRateLimit. cbv zeta. rewrite cleanUp_lookup, H.
    destruct (stale now a); [reflexivity|].
    destruct (Nat.leb_spec maxAttempts (Attempts.count a)); [reflexivity | lia]. }
  split; [exact E|]. intros Hs. rewrite E, Hs. cbn [fst].
  now rewrite cleanUp_lookup, H, Hs.
Qed.

Lemma blocked_until_the_window_ends_witness :
  loginRateLimit "10.0.0.1" 900001 (<["10.0.0.1" := Attempts.mk 5 0]> ∅)
  = (if stale 900001 (Attempts.mk 5 0)
     then (<["10.0.0.1" := Attempts.mk 1 900001]>
             (cleanUp 900001 (<["10.0.0.1" := Attempts.mk 5 0]> ∅)), next)
     else (cleanUp 900001 (<["10.0.0.1" := Attempts.mk 5 0]> ∅),
           status_429 (ceil_minutes (0 + windowMs - 900001))))
  /\ (stale 900001 (Attempts.mk 5 0) = false ->
      fst (loginRateLimit "10.0.0.1" 900001 (<["10.0.0.1" := Attempts.mk 5 0]> ∅))
        !! "10.0.0.1" = Some (Attempts.mk 5 0)).
Proof.
  apply (blocked_until_the_window_ends "10.0.0.1" 900001
           (<["10.0.0.1" := Attempts.mk 5 0]> ∅) (Attempts.mk 5 0)).
  - reflexivity.
  - unfold maxAttempts. cbn. lia.
Defined.

(** X20.  The minutes a 429 answer tells the client to wait are between 0
    and 15, when the clock has not gone back behind the first attempt;
    they are 0, with the request refused all the same, exactly when the
    request arrives at the very end of the window. *)
Theorem minutes_left_are_between_0_and_15 ip now attempts a kept timeLeft :
  attempts !! ip = Some a ->
  (Attempts.firstAttempt a <= now)%Z ->
  loginRateLimit ip now attempts = (kept, status_429 timeLeft) ->
  (0 <= timeLeft <= 15)%Z
  /\ (timeLeft = 0 <-> now - Attempts.firstAttempt a = windowMs)%Z.
Proof.
  intros H Hclock E. unfold loginRateLimit in E. cbv zeta in E.
  rewrite cleanUp_lookup, H in E. destruct (stale now a) eqn:Hs; [discriminate|].
  destruct (maxAttempts <=? Attempts.count a)%nat; [|discriminate].
  injection E as _ <-. unfold stale in Hs. apply Z.ltb_ge in Hs.
  unfold ceil_minutes, windowMs in *.
  remember (Attempts.firstAttempt a) as t0.
  pose proof (Z.div_mod (- (t0 + 15 * 60 * 1000 - now)) 60000 ltac:(lia)) as Hd.
  pose proof (Z.mod_pos_bound (- (t0 + 15 * 60 * 1000 - now)) 60000 ltac:(lia)) as Hm.
  lia.
Qed.

Lemma minutes_left_are_between_0_and_15_witness :
  (0 <= 0 <= 15)%Z
  /\ (0 = 0 <-> 900000 - Attempts.firstAttempt (Attempts.mk 5 0) = windowMs)%Z.
Proof.
  apply (minutes_left_are_between_0_and_15 "10.0.0.1" 900000
           (<["10.0.0.1" := Attempts.mk 5 0]> ∅) (Attempts.mk 5 0)
           (cleanUp 900000 (<["10.0.0.1" := Attempts.mk 5 0]> ∅)) 0).
  - reflexivity.
  - cbn. lia.
  - reflexivity.
Defined.

Lemma counts_in_bounds_step ip now attempts :
  map_Forall (fun _ a => 1 <= Attempts.count a <= maxAttempts) attempts ->
  map_Forall (fun _ a => 1 <= Attempts.count a <= maxAttempts)
    (fst (loginRateLimit ip now attempts)).
Proof.
  intros H.
  assert (Hc : map_Forall (fun _ a => 1 <= Attempts.count a <= maxAttempts)
                 (cleanUp now attempts)).
  { intros k a Hk. rewrite cleanUp_lookup in Hk.
    destruct (attempts !! k) as [a'|] eqn:E; [|discriminate].
    destruct (stale now a'); [discriminate|]. injection Hk as <-.
    now apply (H k). }
  unfold loginRateLimit. cbv zeta.
  destruct (cleanUp now attempts !! ip) as [a|] eqn:E.
  - destruct (Nat.leb_spec maxAttempts (Attempts.count a)); cbn [fst]; [exact Hc|].
    apply map_Forall_insert_2; [|exact Hc]. cbn. specialize (Hc ip a E). cbn in Hc. lia.
  - cbn [fst]. apply map_Forall_insert_2; [|exact Hc]. cbn. unfold maxAttempts. lia.
Qed.

(** X21.  Whatever requests have been served since the process started,
    no address has fewer than one or more than five attempts on record. *)
Theorem recorded_attempts_stay_within_bounds requests :
  map_Forall (fun _ a => 1 <= Attempts.count a <= maxAttempts)
    (attempts_after requests ∅).
Proof.
  assert (H : forall attempts,
            map_Forall (fun _ a => 1 <= Attempts.count a <= maxAttempts) attempts ->
            map_Forall (fun _ a => 1 <= Attempts.count a <= maxAttempts)
              (attempts_after requests attempts)).
  { induction requests as [|[ip now] r IH]; intros attempts Ha; [exact Ha|].
    cbn [attempts_after]. apply IH. now apply counts_in_bounds_step. }
  apply H. apply map_Forall_empty.
Qed.

(* ===================================================================== *)
(** ** Who is told that a streamer came online *)
(* ===================================================================== *)





(* ===================================================================== *)
(** ** The two rooms of a stream *)
(* ===================================================================== *)

Lemma viewers_are_in_the_room_of_server_js_witness :
  In "b" (members (stream_room "live1")
            (fst (run [ (allOk, Authenticate "b" "u2" "bob");
                        (allOk, JoinStream "b" "live1") ] (boot ∅ ∅))))
  /\ In "b" (members (server_stream_room "live1")
               (fst (run [ (allOk, Authenticate "b" "u2" "bob");
                           (allOk, JoinStream "b" "live1") ] (boot ∅ ∅)))).
Proof.
  assert (H : In "b" (members (stream_room "live1")
            (fst (run [ (allOk, Authenticate "b" "u2" "bob");
                        (allOk, JoinStream "b" "live1") ] (boot ∅ ∅)))))
    by (vm_compute; now left).
  split; [exact H|].
  apply (viewers_are_in_the_room_of_server_js ∅ ∅
           [ (allOk, Authenticate "b" "u2" "bob");
             (allOk, JoinStream "b" "live1") ] "b" "live1").
  exact H.
Defined.

(* ===================================================================== *)
(** ** routes/streams.js: the pages of a listing *)
(* ===================================================================== *)

Lemma firstn_plus {A} a b (l : list A) :
  firstn (a + b) l = firstn a l ++ firstn b (skipn a l).
Proof.
  revert l. induction a as [|a IH]; intros l; [reflexivity|].
  destruct l as [|x l]; cbn [Nat.add firstn skipn app].
  - now rewrite firstn_nil.
  - now rewrite IH.
Qed.

Lemma first_pages {A} limit (matching : list A) n :
  concat (map (fun page => page_of page limit matching) (List.seq 1 n))
  = firstn (n * limit) matching.
Proof.
  induction n as [|n IH]; [reflexivity|].
  rewrite seq_S, map_app, concat_app, IH. cbn [map concat Nat.add].
  rewrite app_nil_r. unfold page_of.
  replace (S n - 1) with n by lia.
  replace (S n * limit) with (n * limit + limit) by lia.
  now rewrite firstn_plus.
Qed.

Lemma pages_cover total limit :
  1 <= limit ->
  total <= pages total limit * limit
  /\ (pages total limit - 1) * limit < total + (if (total =? 0)%nat then 1 else 0).
Proof.
  intros Hl. unfold pages.
  pose proof (Nat.div_mod_eq total limit) as Hd.
  pose proof (Nat.mod_upper_bound total limit ltac:(lia)) as Hm.
  destruct (Nat.eqb_spec (total mod limit) 0) as [E|E];
    destruct (Nat.eqb_spec total 0) as [E0|E0]; split; try nia.
  all: try (subst total; rewrite ?Nat.Div0.div_0_l, ?Nat.Div0.mod_0_l in *; lia).
  all: assert (1 <= total / limit) by (destruct (total / limit); nia); nia.
Qed.

(** X23.  The pages of a listing fit the page count the route reports:
    for whole [page] and [limit] of at least 1 and a given ordered list
    of matching streams, page [page] holds streams exactly when [page]
    is at most [pages], it never holds more than [limit], and pages 1 to
    [pages] put end to end are the whole list. *)
Theorem pages_are_the_pages_with_streams {A} (matching : list A) page limit :
  1 <= page ->
  1 <= limit ->
  length (page_of page limit matching)
  = Nat.min limit (length matching - (page - 1) * limit)
  /\ (page_of page limit matching <> [] <-> page <= pages (length matching) limit)
  /\ concat (map (fun p => page_of p limit matching)
               (List.seq 1 (pages (length matching) limit)))
     = matching.
Proof.
  intros Hp Hl.
  assert (Hlen : length (page_of page limit matching)
                 = Nat.min limit (length matching - (page - 1) * limit)).
  { unfold page_of. now rewrite length_firstn, length_skipn. }
  destruct (pages_cover (length matching) limit Hl) as [Hup Hlow].
  split; [exact Hlen|]. split.
  - split.
    + intros Hne.
      assert (0 < length (page_of page limit matching))
        by (destruct (page_of page limit matching); [congruence | cbn; lia]).
      unfold pages in *.
      pose proof (Nat.div_mod_eq (length matching) limit) as Hd.
      pose proof (Nat.mod_upper_bound (length matching) limit ltac:(lia)) as Hm.
      destruct (Nat.eqb_spec (length matching mod limit) 0); nia.
    + intros Hle Hnil. rewrite Hnil in Hlen. cbn [length] in Hlen.
      destruct (Nat.eqb_spec (length matching) 0) as [E0|E0].
      * rewrite E0 in Hle. unfold pages in Hle.
        rewrite Nat.Div0.div_0_l, Nat.Div0.mod_0_l in Hle. cbn in Hle. lia.
      * assert ((page - 1) * limit <= (pages (length matching) limit - 1) * limit)
          by (apply Nat.mul_le_mono_r; lia).
        lia.
  - rewrite first_pages. apply firstn_all2. exact Hup.
Qed.

Lemma pages_are_the_pages_with_streams_witness :
  length (page_of 3 2 ["a"; "b"; "c"; "d"; "e"])
  = Nat.min 2 (length ["a"; "b"; "c"; "d"; "e"] - (3 - 1) * 2)
  /\ (page_of 3 2 ["a"; "b"; "c"; "d"; "e"] <> []
      <-> 3 <= pages (length ["a"; "b"; "c"; "d"; "e"]) 2)
  /\ concat (map (fun p => page_of p 2 ["a"; "b"; "c"; "d"; "e"])
               (List.seq 1 (pages (length ["a"; "b"; "c"; "d"; "e"]) 2)))
     = ["a"; "b"; "c"; "d"; "e"].
Proof.
  apply (pages_are_the_pages_with_streams ["a"; "b"; "c"; "d"; "e"] 3 2); lia.
Defined.
